(** * APKES (Adaptable Pairwise Key Establishment Scheme) and its flash helper

    A shallow embedding of

      - [core/net/llsec/coresec/apkes.c]  (handshake engine, bootstrap driver)
      - [platform/sky/apkes-flash.c]      (append-only keying-material log)

    C integers are [Z] with the wrap-around written out, bytes are [Z] in
    [0, 256), byte buffers are lists, pointers into the neighbor table and
    into the wait-timer pool are [nat] indices, [NULL] is [None]. *)

From Stdlib Require Import ZArith Lia.
From stdpp Require Import base numbers option list gmap.

#[local] Open Scope Z_scope.

(** ** Machine integers and byte buffers *)

Definition wrap8 (z : Z) : Z := z mod 2 ^ 8.
Definition wrap16 (z : Z) : Z := z mod 2 ^ 16.
Definition wrap32 (z : Z) : Z := z mod 2 ^ 32.

(** [n] bytes of memory starting [off] bytes into [buf]; what lies beyond the
    modelled buffer reads as 0. *)
Definition read_bytes (buf : list Z) (off n : nat) : list Z :=
  (λ k, default 0 (buf !! (off + k)%nat)) <$> seq 0 n.

(** [memcpy(dst + off, src, n)] *)
Definition memcpy (dst : list Z) (off : nat) (src : list Z) (n : nat) : list Z :=
  list_inserts off (read_bytes src 0 n) dst.

(** [memcmp(a, b, n) != 0] *)
Definition memcmp_ne (a b : list Z) (n : nat) : bool :=
  negb (bool_decide (read_bytes a 0 n = read_bytes b 0 n)).

(** In-memory representation of a [uint16_t] (little-endian, as on the
    MSP430 and as the wire format prescribes). *)
Definition uint16_bytes (z : Z) : list Z := [wrap16 z mod 256; wrap16 z / 256].

(** * Flash helper ([platform/sky/apkes-flash.c]) *)

Module Flash.

(** Modelled from the spec: the external-memory driver of [dev/xmem.h] is
    not part of the sources.  The memory is a map from byte addresses to
    bytes. *)
Definition xmem := Z → Z.

(** Modelled from the spec: what an erased byte of [dev/xmem.h]'s memory
    reads as is not part of the sources; flash erases to all ones. *)
Definition xmem_erased_byte : Z := 255.

(** Modelled from the spec: [xmem_erase] of [dev/xmem.h] is not part of the
    sources; it "clears one erase unit", here [size] bytes from [addr]. *)
Definition xmem_erase (size addr : Z) (m : xmem) : xmem :=
  λ a, if decide (addr ≤ a < addr + size) then xmem_erased_byte else m a.

(** Modelled from the spec: [xmem_pwrite] of [dev/xmem.h] is not part of the
    sources; it "writes [len] bytes" of [buf] at [addr]. *)
Definition xmem_pwrite (buf : list Z) (addr : Z) (m : xmem) : xmem :=
  λ a, if decide (addr ≤ a < addr + Z.of_nat (length buf))
       then default 0 (buf !! Z.to_nat (a - addr)) else m a.

(** Modelled from the spec: [xmem_pread] of [dev/xmem.h] is not part of the
    sources; it "reads [len] bytes" from [addr]. *)
Definition xmem_pread (size addr : Z) (m : xmem) : list Z :=
  (λ k, m (addr + k)) <$> seqZ 0 size.

(** Platform constants of [dev/xmem.h] and [contiki-conf.h]. *)
Record layout := {
  XMEM_ERASE_UNIT_SIZE : Z;
  APKES_FLASH_KEYING_MATERIAL_OFFSET : Z
}.

(** [static unsigned short keying_material_offset] and the flash contents. *)
Record state := {
  flash : xmem;
  keying_material_offset : Z
}.

Section WithLayout.
Context (L : layout).

Definition apkes_flash_erase_keying_material (st : state) : state :=
  {| flash := xmem_erase (XMEM_ERASE_UNIT_SIZE L)
                (APKES_FLASH_KEYING_MATERIAL_OFFSET L) (flash st);
     keying_material_offset := 0 |}.

(** [len] is a [uint16_t]; [keying_material] points to at least [len]
    bytes. *)
Definition apkes_flash_append_keying_material
    (keying_material : list Z) (len : Z) (st : state) : state :=
  {| flash := xmem_pwrite (read_bytes keying_material 0 (Z.to_nat (wrap16 len)))
                (APKES_FLASH_KEYING_MATERIAL_OFFSET L + keying_material_offset st)
                (flash st);
     keying_material_offset := wrap16 (keying_material_offset st + wrap16 len) |}.

(** Returns the bytes stored into the caller's buffer, and the state. *)
Definition apkes_flash_restore_keying_material
    (len offset : Z) (st : state) : list Z * state :=
  (xmem_pread (wrap16 len)
     (APKES_FLASH_KEYING_MATERIAL_OFFSET L + wrap16 offset) (flash st), st).

(** A sequence of appends, each of a whole buffer. *)
Definition append_all (chunks : list (list Z)) (st : state) : state :=
  foldl (λ s c, apkes_flash_append_keying_material c (Z.of_nat (length c)) s) st chunks.

(** A sequence of restores [(len, offset)], results discarded. *)
Definition restore_all (reads : list (Z * Z)) (st : state) : state :=
  foldl (λ s r, (apkes_flash_restore_keying_material r.1 r.2 s).2) st reads.

End WithLayout.

(** The sky platform: 64 KiB erase units. *)
Definition sky_layout : layout :=
  {| XMEM_ERASE_UNIT_SIZE := 65536; APKES_FLASH_KEYING_MATERIAL_OFFSET := 0 |}.

(** A flash full of zeros with the cursor left somewhere. *)
Definition blank : state := {| flash := λ _, 0; keying_material_offset := 7 |}.

End Flash.

(** * Handshake engine and bootstrap driver ([core/net/llsec/coresec/apkes.c]) *)

Module Apkes.

(** ** Build-time configuration *)

(** Constants the file takes from headers that are not part of the sources
    ([CLOCK_SECOND], [RANDOM_RAND_MAX], [EBEAP_WITH_ENCRYPTION],
    [NEIGHBOR_BROADCAST_KEY_LEN], [LLSEC802154_SECURITY_LEVEL]) and the two
    tunables whose defaults the file sets itself ([ROUNDS],
    [MAX_TENTATIVE_NEIGHBORS]). *)
Record config := {
  CLOCK_SECOND : Z;
  RANDOM_RAND_MAX : Z;
  ROUNDS : Z;
  MAX_TENTATIVE_NEIGHBORS : nat;
  EBEAP_WITH_ENCRYPTION : bool;
  NEIGHBOR_BROADCAST_KEY_LEN : nat;
  LLSEC802154_SECURITY_LEVEL : Z
}.

Definition ROUND_DURATION (cfg : config) : Z := 7 * CLOCK_SECOND cfg.
Definition MAX_WAITING_PERIOD (cfg : config) : Z :=
  ROUND_DURATION cfg - 2 * CLOCK_SECOND cfg.
Definition ACK_DELAY (cfg : config) : Z := 5 * CLOCK_SECOND cfg.

(** Command frame identifiers *)
Definition HELLO_IDENTIFIER : Z := 0x0A.
Definition HELLOACK_IDENTIFIER : Z := 0x0B.
Definition ACK_IDENTIFIER : Z := 0x0C.

(** Modelled from the spec: [NEIGHBOR_PAIRWISE_KEY_LEN] of [neighbor.h] is
    not part of the sources; the pairwise key is a "16-byte symmetric key". *)
Definition NEIGHBOR_PAIRWISE_KEY_LEN : nat := 16.

(** Modelled from the spec: [NEIGHBOR_SHORT_ADDR_LEN] of [neighbor.h] is not
    part of the sources; a short address is 16 bits, 2 bytes on the wire. *)
Definition NEIGHBOR_SHORT_ADDR_LEN : nat := 2.

Definition CHALLENGE_LEN : nat := NEIGHBOR_PAIRWISE_KEY_LEN / 2.

(** Modelled from the spec: the key-id modes of [frame802154.h] are not part
    of the sources; these are their IEEE 802.15.4 numbers (key identifier of
    1 byte: the index; of 5 bytes: 4 bytes of key source and the index). *)
Definition FRAME802154_1_BYTE_KEY_ID_MODE : Z := 1.
Definition FRAME802154_5_BYTE_KEY_ID_MODE : Z := 2.

(** The sky platform's clock and Contiki's [random.h], with the defaults of
    this file and EBEAP encryption switched off. *)
Definition default_config : config :=
  {| CLOCK_SECOND := 128;
     RANDOM_RAND_MAX := 65535;
     ROUNDS := 6;
     MAX_TENTATIVE_NEIGHBORS := 2;
     EBEAP_WITH_ENCRYPTION := false;
     NEIGHBOR_BROADCAST_KEY_LEN := 0;
     LLSEC802154_SECURITY_LEVEL := 2 |}.

(** ** Data model *)

Inductive neighbor_status :=
  | NEIGHBOR_PERMANENT
  | NEIGHBOR_TENTATIVE
  | NEIGHBOR_TENTATIVE_AWAITING_ACK.

#[global] Instance neighbor_status_eq_dec : EqDecision neighbor_status.
Proof. solve_decision. Defined.

Record neighbor_ids := {
  extended_addr : list Z;
  short_addr : list Z
}.

(** Modelled from the spec: [struct anti_replay_info] of
    [net/llsec/anti-replay.h] is not part of the sources; it is the per-peer
    replay state, here the last accepted frame counters. *)
Record anti_replay_info := {
  last_broadcast_counter : Z;
  last_unicast_counter : Z
}.

(** Modelled from the spec: [struct neighbor] of [neighbor.h] is not part of
    the sources; these are the members [apkes.c] accesses. *)
Record neighbor := {
  ids : neighbor_ids;
  anti_replay : anti_replay_info;
  status : neighbor_status;
  local_index : Z;
  metadata : list Z;
  pairwise_key : list Z;
  expiration_time : Z
}.

Definition set_ids (x : neighbor_ids) (n : neighbor) : neighbor :=
  {| ids := x; anti_replay := anti_replay n; status := status n;
     local_index := local_index n; metadata := metadata n;
     pairwise_key := pairwise_key n; expiration_time := expiration_time n |}.
Definition set_anti_replay (x : anti_replay_info) (n : neighbor) : neighbor :=
  {| ids := ids n; anti_replay := x; status := status n;
     local_index := local_index n; metadata := metadata n;
     pairwise_key := pairwise_key n; expiration_time := expiration_time n |}.
Definition set_status (x : neighbor_status) (n : neighbor) : neighbor :=
  {| ids := ids n; anti_replay := anti_replay n; status := x;
     local_index := local_index n; metadata := metadata n;
     pairwise_key := pairwise_key n; expiration_time := expiration_time n |}.
Definition set_metadata (x : list Z) (n : neighbor) : neighbor :=
  {| ids := ids n; anti_replay := anti_replay n; status := status n;
     local_index := local_index n; metadata := x;
     pairwise_key := pairwise_key n; expiration_time := expiration_time n |}.
Definition set_expiration_time (x : Z) (n : neighbor) : neighbor :=
  {| ids := ids n; anti_replay := anti_replay n; status := status n;
     local_index := local_index n; metadata := metadata n;
     pairwise_key := pairwise_key n; expiration_time := x |}.

(** The packet buffer: the frame being built or the frame just received.
    [payload] is the region behind the command frame identifier, [datalen]
    counts the identifier too. *)
Record frame := {
  command_frame_identifier : Z;
  addr_sender : list Z;
  addr_receiver : list Z;
  security_level : Z;
  key_id_mode : Z;
  key_index : Z;
  key_source_bytes_0_1 : Z;
  frame_counter : Z;
  payload : list Z;
  datalen : nat
}.

(** Modelled from the spec: [PACKETBUF_SIZE] of [net/packetbuf.h] and
    [linkaddr_null] of [net/linkaddr.h] are not part of the sources; the
    buffer holds one IEEE 802.15.4 frame, the null address is "the broadcast
    address" of 8 zero bytes. *)
Definition PACKETBUF_SIZE : nat := 128.
Definition linkaddr_null : list Z := replicate 8 0.

(** Modelled from the spec: [coresec_prepare_command_frame] of [coresec.c] is
    not part of the sources; it "allocates a frame and returns the writable
    payload region". *)
Definition coresec_prepare_command_frame (cmd : Z) (dest : list Z) : frame :=
  {| command_frame_identifier := cmd;
     addr_sender := linkaddr_null;
     addr_receiver := dest;
     security_level := 0;
     key_id_mode := 0;
     key_index := 0;
     key_source_bytes_0_1 := 0;
     frame_counter := 0;
     payload := replicate (PACKETBUF_SIZE - 1) 0;
     datalen := 0 |}.

(** Modelled from the spec: [coresec_add_security_header] of [coresec.c] is
    not part of the sources; it "attaches authentication/encryption
    metadata", here the security level. *)
Definition coresec_add_security_header (level : Z) (f : frame) : frame :=
  {| command_frame_identifier := command_frame_identifier f;
     addr_sender := addr_sender f; addr_receiver := addr_receiver f;
     security_level := level;
     key_id_mode := key_id_mode f; key_index := key_index f;
     key_source_bytes_0_1 := key_source_bytes_0_1 f;
     frame_counter := frame_counter f;
     payload := payload f; datalen := datalen f |}.

(** Modelled from the spec: [packetbuf_set_attr] of [net/packetbuf.h] is not
    part of the sources; it "sets frame attributes (key-id mode, key-index,
    key-source bytes)", a 16-bit value each. *)
Definition set_key_id_mode (x : Z) (f : frame) : frame :=
  {| command_frame_identifier := command_frame_identifier f;
     addr_sender := addr_sender f; addr_receiver := addr_receiver f;
     security_level := security_level f;
     key_id_mode := x; key_index := key_index f;
     key_source_bytes_0_1 := key_source_bytes_0_1 f;
     frame_counter := frame_counter f;
     payload := payload f; datalen := datalen f |}.
Definition set_key_index (x : Z) (f : frame) : frame :=
  {| command_frame_identifier := command_frame_identifier f;
     addr_sender := addr_sender f; addr_receiver := addr_receiver f;
     security_level := security_level f;
     key_id_mode := key_id_mode f; key_index := x;
     key_source_bytes_0_1 := key_source_bytes_0_1 f;
     frame_counter := frame_counter f;
     payload := payload f; datalen := datalen f |}.
Definition set_key_source_bytes_0_1 (x : Z) (f : frame) : frame :=
  {| command_frame_identifier := command_frame_identifier f;
     addr_sender := addr_sender f; addr_receiver := addr_receiver f;
     security_level := security_level f;
     key_id_mode := key_id_mode f; key_index := key_index f;
     key_source_bytes_0_1 := wrap16 x;
     frame_counter := frame_counter f;
     payload := payload f; datalen := datalen f |}.
Definition set_payload (x : list Z) (f : frame) : frame :=
  {| command_frame_identifier := command_frame_identifier f;
     addr_sender := addr_sender f; addr_receiver := addr_receiver f;
     security_level := security_level f;
     key_id_mode := key_id_mode f; key_index := key_index f;
     key_source_bytes_0_1 := key_source_bytes_0_1 f;
     frame_counter := frame_counter f;
     payload := x; datalen := datalen f |}.
(** Modelled from the spec: [packetbuf_set_datalen] of [net/packetbuf.h] is
    not part of the sources; it sets the length of the frame's data. *)
Definition packetbuf_set_datalen (x : nat) (f : frame) : frame :=
  {| command_frame_identifier := command_frame_identifier f;
     addr_sender := addr_sender f; addr_receiver := addr_receiver f;
     security_level := security_level f;
     key_id_mode := key_id_mode f; key_index := key_index f;
     key_source_bytes_0_1 := key_source_bytes_0_1 f;
     frame_counter := frame_counter f;
     payload := payload f; datalen := x |}.

(** ** Wait-timer pool *)

(** [struct wait_timer]: [ctimer] holds the period the timer was last set to
    ([None] before [ctimer_set]), [wt_neighbor] the guarded neighbor. *)
Record wait_timer := {
  ctimer : option Z;
  wt_neighbor : option nat
}.

(** Modelled from the spec: the block pool of [lib/memb.h] is not part of
    the sources; a "fixed-size free list" of blocks, each with its use
    count. *)
Abbreviation memb A := (list (nat * A)).

(** Modelled from the spec: [memb_init] of [lib/memb.h] is not part of the
    sources; all [num] blocks are unused and zeroed. *)
Definition memb_init {A} (num : nat) (zero : A) : memb A := replicate num (0%nat, zero).

(** Modelled from the spec: [memb_alloc] of [lib/memb.h] is not part of the
    sources; "[allocate()] returns a slot or fails": the first unused block,
    or [NULL]. *)
Fixpoint memb_alloc {A} (m : memb A) : option (nat * memb A) :=
  match m with
  | [] => None
  | (count, block) :: m' =>
      if decide (count = 0%nat) then Some (0%nat, (S count, block) :: m')
      else '(i, m'') ← memb_alloc m'; Some (S i, (count, block) :: m'')
  end.

(** Modelled from the spec: [memb_free] of [lib/memb.h] is not part of the
    sources; "[release(slot)] returns it to the pool"; the block keeps its
    contents. *)
Definition memb_free {A} (m : memb A) (ptr : nat) : memb A :=
  alter (λ cb, (Nat.pred cb.1, cb.2)) ptr m.

(** Whether the block at [ptr] is allocated. *)
Definition memb_inuse {A} (m : memb A) (ptr : nat) : bool :=
  match m !! ptr with
  | Some (count, _) => negb (bool_decide (count = 0%nat))
  | None => false
  end.

(** ** Program state *)

(** What the module does to collaborators whose state is not modelled. *)
Inductive event :=
  | EvSend (f : frame)                         (* coresec_send_command_frame() *)
  | EvNeighborUpdate (p : nat) (data : list Z) (* neighbor_update(p, data) *)
  | EvSchemeInit                               (* APKES_SCHEME.init() *)
  | EvEtimerSet (interval : Z)                 (* etimer_set(&round_timer, ..) *)
  | EvEtimerReset                              (* etimer_reset(&round_timer) *)
  | EvOnBootstrapped (callback : nat).         (* on_bootstrapped() *)

(** Where [apkes_process] stands: not running, or suspended in
    [PROCESS_WAIT_EVENT_UNTIL]. *)
Inductive process_lc := PROCESS_NONE | PROCESS_WAITING.

Record state := {
  neighbors : gmap nat neighbor;          (* the neighbor table *)
  wait_timers_memb : memb wait_timer;
  our_challenge : list Z;
  on_bootstrapped : option nat;
  apkes_process : process_lc;
  i : Z;                                  (* static uint8_t i *)
  node_id : Z;
  ebeap_broadcast_key : list Z;
  clock_seconds : Z;
  csprng_calls : nat;
  random_calls : nat;
  trace : list event
}.

Definition set_neighbors (x : gmap nat neighbor) (st : state) : state :=
  {| neighbors := x; wait_timers_memb := wait_timers_memb st;
     our_challenge := our_challenge st; on_bootstrapped := on_bootstrapped st;
     apkes_process := apkes_process st; i := i st; node_id := node_id st;
     ebeap_broadcast_key := ebeap_broadcast_key st;
     clock_seconds := clock_seconds st; csprng_calls := csprng_calls st;
     random_calls := random_calls st; trace := trace st |}.
Definition set_wait_timers_memb (x : memb wait_timer) (st : state) : state :=
  {| neighbors := neighbors st; wait_timers_memb := x;
     our_challenge := our_challenge st; on_bootstrapped := on_bootstrapped st;
     apkes_process := apkes_process st; i := i st; node_id := node_id st;
     ebeap_broadcast_key := ebeap_broadcast_key st;
     clock_seconds := clock_seconds st; csprng_calls := csprng_calls st;
     random_calls := random_calls st; trace := trace st |}.
Definition set_our_challenge (x : list Z) (st : state) : state :=
  {| neighbors := neighbors st; wait_timers_memb := wait_timers_memb st;
     our_challenge := x; on_bootstrapped := on_bootstrapped st;
     apkes_process := apkes_process st; i := i st; node_id := node_id st;
     ebeap_broadcast_key := ebeap_broadcast_key st;
     clock_seconds := clock_seconds st; csprng_calls := csprng_calls st;
     random_calls := random_calls st; trace := trace st |}.
Definition set_on_bootstrapped (x : option nat) (st : state) : state :=
  {| neighbors := neighbors st; wait_timers_memb := wait_timers_memb st;
     our_challenge := our_challenge st; on_bootstrapped := x;
     apkes_process := apkes_process st; i := i st; node_id := node_id st;
     ebeap_broadcast_key := ebeap_broadcast_key st;
     clock_seconds := clock_seconds st; csprng_calls := csprng_calls st;
     random_calls := random_calls st; trace := trace st |}.
Definition set_apkes_process (x : process_lc) (st : state) : state :=
  {| neighbors := neighbors st; wait_timers_memb := wait_timers_memb st;
     our_challenge := our_challenge st; on_bootstrapped := on_bootstrapped st;
     apkes_process := x; i := i st; node_id := node_id st;
     ebeap_broadcast_key := ebeap_broadcast_key st;
     clock_seconds := clock_seconds st; csprng_calls := csprng_calls st;
     random_calls := random_calls st; trace := trace st |}.
Definition set_i (x : Z) (st : state) : state :=
  {| neighbors := neighbors st; wait_timers_memb := wait_timers_memb st;
     our_challenge := our_challenge st; on_bootstrapped := on_bootstrapped st;
     apkes_process := apkes_process st; i := wrap8 x; node_id := node_id st;
     ebeap_broadcast_key := ebeap_broadcast_key st;
     clock_seconds := clock_seconds st; csprng_calls := csprng_calls st;
     random_calls := random_calls st; trace := trace st |}.
Definition set_csprng_calls (x : nat) (st : state) : state :=
  {| neighbors := neighbors st; wait_timers_memb := wait_timers_memb st;
     our_challenge := our_challenge st; on_bootstrapped := on_bootstrapped st;
     apkes_process := apkes_process st; i := i st; node_id := node_id st;
     ebeap_broadcast_key := ebeap_broadcast_key st;
     clock_seconds := clock_seconds st; csprng_calls := x;
     random_calls := random_calls st; trace := trace st |}.
Definition set_random_calls (x : nat) (st : state) : state :=
  {| neighbors := neighbors st; wait_timers_memb := wait_timers_memb st;
     our_challenge := our_challenge st; on_bootstrapped := on_bootstrapped st;
     apkes_process := apkes_process st; i := i st; node_id := node_id st;
     ebeap_broadcast_key := ebeap_broadcast_key st;
     clock_seconds := clock_seconds st; csprng_calls := csprng_calls st;
     random_calls := x; trace := trace st |}.
Definition emit (e : event) (st : state) : state :=
  {| neighbors := neighbors st; wait_timers_memb := wait_timers_memb st;
     our_challenge := our_challenge st; on_bootstrapped := on_bootstrapped st;
     apkes_process := apkes_process st; i := i st; node_id := node_id st;
     ebeap_broadcast_key := ebeap_broadcast_key st;
     clock_seconds := clock_seconds st; csprng_calls := csprng_calls st;
     random_calls := random_calls st; trace := trace st ++ [e] |}.

(** ** External collaborators *)

(** [struct apkes_scheme]: the pluggable provider of long-term secrets; a
    secret is a key or [NULL]. *)
Class apkes_scheme := {
  get_secret_with_hello_sender : neighbor_ids → option (list Z);
  get_secret_with_helloack_sender : neighbor_ids → option (list Z)
}.

(** Link-layer security module, neighbor table, AES and random sources, as
    far as [apkes.c] consumes them.

    - [coresec_decrypt_verify_unicast key f] is [None] when verification of
      the received frame [f] fails and otherwise the packet buffer after
      decryption;
    - [neighbor_new] returns a pointer to a fresh entry or [NULL], and the
      table it leaves behind;
    - [neighbor_update_ids f bytes] is the [struct neighbor_ids] it writes for
      the received frame [f] and the short address found at the pointer it
      was given;
    - [neighbor_store_trailer] is what [neighbor_update] keeps of the data at
      the pointer it was given;
    - [anti_replay_was_replayed] returns the verdict and the updated replay
      state;
    - [csprng_rand k] and [random_rand k] are the outputs of the [k]-th
      call. *)
Class collaborators := {
  coresec_decrypt_verify_unicast : list Z → frame → option frame;
  neighbor_new : gmap nat neighbor → option nat * gmap nat neighbor;
  neighbor_update_ids : frame → list Z → neighbor_ids;
  neighbor_store_trailer : neighbor → frame → list Z → neighbor;
  anti_replay_was_replayed : anti_replay_info → frame → bool * anti_replay_info;
  aes_128_padded_encrypt : list Z → list Z → list Z;
  csprng_rand : nat → list Z;
  random_rand : nat → Z
}.

(** ** Operations *)

Section Operations.
Context (cfg : config) `{scheme : apkes_scheme} `{ext : collaborators}.

(** Modelled from the spec: [neighbor_update] of the neighbor table is not
    part of the sources; it "promotes the entry to PERMANENT". *)
Definition neighbor_update (n : neighbor) (f : frame) (data : list Z) : neighbor :=
  set_status NEIGHBOR_PERMANENT (neighbor_store_trailer n f data).

(** [CORESEC_SET_PAIRWISE_KEY(shared_secret)] selects the AES key, then the
    first [NEIGHBOR_PAIRWISE_KEY_LEN] bytes of [metadata] are encrypted in
    place. *)
Definition generate_pairwise_key (n : neighbor) (shared_secret : list Z) : neighbor :=
  set_metadata
    (memcpy (metadata n) 0
       (aes_128_padded_encrypt shared_secret
          (read_bytes (metadata n) 0 NEIGHBOR_PAIRWISE_KEY_LEN))
       NEIGHBOR_PAIRWISE_KEY_LEN) n.

Definition get_pairwise_key_with (p : nat) (st : state)
    : option (option (list Z) * state) :=
  n ← neighbors st !! p;
  if decide (status n = NEIGHBOR_TENTATIVE_AWAITING_ACK) then
    (* sending a message to a tentative neighbor --> must be HELLOACK *)
    match get_secret_with_hello_sender (ids n) with
    | Some key =>
        Some (Some key,
              set_neighbors (<[p := generate_pairwise_key n key]> (neighbors st)) st)
    | None => Some (None, st)
    end
  else Some (Some (pairwise_key n), st).

(** Modelled from the spec: [coresec_send_command_frame] of [coresec.c] is
    not part of the sources; it "hands the frame to the radio". *)
Definition coresec_send_command_frame (f : frame) (st : state) : state :=
  emit (EvSend f) st.

Definition broadcast_hello (st : state) : state :=
  let f := coresec_prepare_command_frame HELLO_IDENTIFIER linkaddr_null in
  (* write payload *)
  let st := set_csprng_calls (S (csprng_calls st))
              (set_our_challenge
                 (memcpy (our_challenge st) 0 (csprng_rand (csprng_calls st))
                    CHALLENGE_LEN) st) in
  let pl := memcpy (payload f) 0 (our_challenge st) CHALLENGE_LEN in
  let pl := memcpy pl CHALLENGE_LEN (uint16_bytes (node_id st))
              NEIGHBOR_SHORT_ADDR_LEN in
  let f := packetbuf_set_datalen
             (1                          (* command frame identifier *)
              + CHALLENGE_LEN            (* challenge *)
              + NEIGHBOR_SHORT_ADDR_LEN) (* short address *)
             (set_payload pl f) in
  coresec_send_command_frame f st.

(** [(MAX_WAITING_PERIOD * (uint32_t) random_rand()) / RANDOM_RAND_MAX] *)
Definition waiting_period (r : Z) : Z :=
  wrap32 (wrap32 (MAX_WAITING_PERIOD cfg) * wrap32 r) / RANDOM_RAND_MAX cfg.

Definition send_helloack (receiver : nat) (st : state) : option state :=
  r ← neighbors st !! receiver;
  let f := coresec_prepare_command_frame HELLOACK_IDENTIFIER
             (extended_addr (ids r)) in
  let f :=
    if EBEAP_WITH_ENCRYPTION cfg then
      set_key_source_bytes_0_1 (node_id st)
        (set_key_index HELLOACK_IDENTIFIER
           (set_key_id_mode FRAME802154_5_BYTE_KEY_ID_MODE
              (coresec_add_security_header
                 (Z.lor (LLSEC802154_SECURITY_LEVEL cfg) (Z.shiftl 1 2)) f)))
    else
      coresec_add_security_header (Z.land (LLSEC802154_SECURITY_LEVEL cfg) 3) f in
  (* write payload *)
  let pl := memcpy (payload f) 0 (metadata r) (2 * CHALLENGE_LEN) in
  let pl := memcpy pl (2 * CHALLENGE_LEN) [local_index r] 1 in
  let pl :=
    if EBEAP_WITH_ENCRYPTION cfg then
      memcpy pl (2 * CHALLENGE_LEN + 1) (ebeap_broadcast_key st)
        (NEIGHBOR_BROADCAST_KEY_LEN cfg)
    else
      memcpy pl (2 * CHALLENGE_LEN + 1) (uint16_bytes (node_id st))
        NEIGHBOR_SHORT_ADDR_LEN in
  let f := packetbuf_set_datalen
             (1                       (* command frame identifier *)
              + 2 * CHALLENGE_LEN     (* Neighbor's challenge || Our challenge *)
              + 1                     (* local index of receiver *)
              + (if EBEAP_WITH_ENCRYPTION cfg
                 then NEIGHBOR_BROADCAST_KEY_LEN cfg  (* broadcast key *)
                 else NEIGHBOR_SHORT_ADDR_LEN))       (* short address *)
             (set_payload pl f) in
  Some (coresec_send_command_frame f st).

Definition send_ack (receiver : nat) (st : state) : option state :=
  r ← neighbors st !! receiver;
  let f := coresec_prepare_command_frame ACK_IDENTIFIER (extended_addr (ids r)) in
  let f :=
    if EBEAP_WITH_ENCRYPTION cfg then
      set_key_index ACK_IDENTIFIER
        (set_key_id_mode FRAME802154_1_BYTE_KEY_ID_MODE
           (coresec_add_security_header
              (Z.lor (LLSEC802154_SECURITY_LEVEL cfg) (Z.shiftl 1 2)) f))
    else
      coresec_add_security_header (Z.land (LLSEC802154_SECURITY_LEVEL cfg) 3) f in
  (* write payload *)
  let pl := memcpy (payload f) 0 [local_index r] 1 in
  let pl :=
    if EBEAP_WITH_ENCRYPTION cfg then
      memcpy pl 1 (ebeap_broadcast_key st) (NEIGHBOR_BROADCAST_KEY_LEN cfg)
    else pl in
  let f := packetbuf_set_datalen
             (1                                 (* command frame identifier *)
              + 1                               (* local index of receiver *)
              + NEIGHBOR_BROADCAST_KEY_LEN cfg) (* broadcast key *)
             (set_payload pl f) in
  Some (coresec_send_command_frame f st).

(** A handler returns [None] when it dereferences a pointer that does not
    point into the neighbor table or the wait-timer pool. *)
Definition on_hello (sender : option nat) (f : frame) (st : state) : option state :=
  match memb_alloc (wait_timers_memb st) with
  | None => Some st (* HELLO flood? *)
  | Some (free_wait_timer, m) =>
      let st := set_wait_timers_memb m st in
      let release st :=
        set_wait_timers_memb (memb_free (wait_timers_memb st) free_wait_timer) st in
      (* if(sender || !((sender = neighbor_new()))) *)
      match sender with
      | Some _ => Some (release st)
      | None =>
          let new := neighbor_new (neighbors st) in
          let st := set_neighbors new.2 st in
          match new.1 with
          | None => Some (release st)
          | Some sender =>
              n ← neighbors st !! sender;
              (* Create tentative neighbor *)
              let n := set_status NEIGHBOR_TENTATIVE n in
              let n := set_ids
                         (neighbor_update_ids f
                            (read_bytes (payload f) CHALLENGE_LEN
                               NEIGHBOR_SHORT_ADDR_LEN)) n in
              (* Write challenges to sender->metadata *)
              let n := set_metadata
                         (memcpy (metadata n) 0 (payload f) CHALLENGE_LEN) n in
              let n := set_metadata
                         (memcpy (metadata n) CHALLENGE_LEN
                            (csprng_rand (csprng_calls st)) CHALLENGE_LEN) n in
              let st := set_csprng_calls (S (csprng_calls st)) st in
              (* Set up waiting period *)
              let period := waiting_period (random_rand (random_calls st)) in
              let st := set_random_calls (S (random_calls st)) st in
              let n := set_expiration_time
                         (wrap32 (clock_seconds st
                                  + (MAX_WAITING_PERIOD cfg + ACK_DELAY cfg)
                                    / CLOCK_SECOND cfg)) n in
              let st := set_neighbors (<[sender := n]> (neighbors st)) st in
              Some (set_wait_timers_memb
                      (alter (λ cb, (cb.1, {| ctimer := Some period;
                                              wt_neighbor := Some sender |}))
                         free_wait_timer (wait_timers_memb st)) st)
          end
      end
  end.

Definition wait_callback (ptr : nat) (st : state) : option state :=
  expired_wait_timer ← wait_timers_memb st !! ptr;
  p ← wt_neighbor expired_wait_timer.2;
  n ← neighbors st !! p;
  st ← (if decide (status n = NEIGHBOR_TENTATIVE) then
          send_helloack p
            (set_neighbors
               (<[p := set_status NEIGHBOR_TENTATIVE_AWAITING_ACK n]> (neighbors st))
               st)
        else Some st);
  Some (set_wait_timers_memb (memb_free (wait_timers_memb st) ptr) st).

(** The bytes [on_helloack] hands to [neighbor_update_ids] as the peer's
    short address. *)
Definition helloack_short_addr (f : frame) : list Z :=
  if EBEAP_WITH_ENCRYPTION cfg then
    uint16_bytes (key_source_bytes_0_1 f)
  else
    read_bytes (payload f)
      (2 * CHALLENGE_LEN + 1 + NEIGHBOR_BROADCAST_KEY_LEN cfg)
      NEIGHBOR_SHORT_ADDR_LEN.

Definition on_helloack (sender : option nat) (f : frame) (st : state) : option state :=
  let ids := neighbor_update_ids f (helloack_short_addr f) in
  match get_secret_with_helloack_sender ids with
  | None => Some st (* Invalid HELLOACK *)
  | Some key =>
      match coresec_decrypt_verify_unicast key f with
      | None => Some st (* Invalid HELLOACK *)
      | Some f =>
          if memcmp_ne (our_challenge st) (payload f) CHALLENGE_LEN
          then Some st (* Invalid HELLOACK *)
          else
            let commit (sender : nat) (st : state) : option state :=
              n ← neighbors st !! sender;
              let n := set_metadata
                         (memcpy (metadata n) 0 (payload f) (2 * CHALLENGE_LEN)) n in
              let n := generate_pairwise_key n key in
              let n := set_ids ids n in
              let data := drop (2 * CHALLENGE_LEN) (payload f) in
              let n := neighbor_update n f data in
              send_ack sender
                (emit (EvNeighborUpdate sender data)
                   (set_neighbors (<[sender := n]> (neighbors st)) st)) in
            match sender with
            | Some p =>
                n ← neighbors st !! p;
                match status n with
                | NEIGHBOR_PERMANENT =>
                    let verdict := anti_replay_was_replayed (anti_replay n) f in
                    let st := set_neighbors
                                (<[p := set_anti_replay verdict.2 n]> (neighbors st))
                                st in
                    if verdict.1 then Some st else commit p st
                | NEIGHBOR_TENTATIVE => commit p st
                | NEIGHBOR_TENTATIVE_AWAITING_ACK => Some st
                end
            | None =>
                (* sender unknown --> create new neighbor *)
                let new := neighbor_new (neighbors st) in
                let st := set_neighbors new.2 st in
                match new.1 with
                | None => Some st
                | Some p => commit p st
                end
            end
      end
  end.

Definition on_ack (sender : option nat) (f : frame) (st : state) : option state :=
  match sender with
  | None => Some st (* Invalid ACK *)
  | Some p =>
      n ← neighbors st !! p;
      if decide (status n ≠ NEIGHBOR_TENTATIVE_AWAITING_ACK)
      then Some st (* Invalid ACK *)
      else
        match coresec_decrypt_verify_unicast (pairwise_key n) f with
        | None => Some st (* Invalid ACK *)
        | Some f =>
            Some (emit (EvNeighborUpdate p (payload f))
                    (set_neighbors
                       (<[p := neighbor_update n f (payload f)]> (neighbors st))
                       st))
        end
  end.

Definition on_command_frame (command_frame_identifier : Z)
    (sender : option nat) (f : frame) (st : state) : option state :=
  if decide (command_frame_identifier = HELLO_IDENTIFIER) then on_hello sender f st
  else if decide (command_frame_identifier = HELLOACK_IDENTIFIER) then
    on_helloack sender f st
  else if decide (command_frame_identifier = ACK_IDENTIFIER) then on_ack sender f st
  else Some st.

(** *** The bootstrap driver [PROCESS_THREAD(apkes_process, ev, data)] *)

(** The [for] loop from its test [i <= ROUNDS] to the next suspension in
    [PROCESS_WAIT_EVENT_UNTIL], or to [PROCESS_END]. *)
Definition apkes_process_rounds (st : state) : option state :=
  if decide (i st ≤ ROUNDS cfg) then
    Some (set_apkes_process PROCESS_WAITING (broadcast_hello st))
  else
    callback ← on_bootstrapped st;
    Some (set_apkes_process PROCESS_NONE
            (set_on_bootstrapped None (emit (EvOnBootstrapped callback) st))).

(** From [PROCESS_BEGIN] on. *)
Definition apkes_process_begin (st : state) : option state :=
  apkes_process_rounds (set_i 1 (emit (EvEtimerSet (ROUND_DURATION cfg)) st)).

(** One event delivered to the process; [expired] is what
    [etimer_expired(&round_timer)] answers at that moment.  A process that
    is not running receives no events. *)
Definition apkes_process_thread (expired : bool) (st : state) : option state :=
  match apkes_process st with
  | PROCESS_NONE => Some st
  | PROCESS_WAITING =>
      if expired then
        let st := if decide (i st ≠ ROUNDS cfg) then emit EvEtimerReset st else st in
        apkes_process_rounds (set_i (i st + 1) st)
      else Some st
  end.

(** Modelled from the spec: [process_start] of [sys/process.h] is not part
    of the sources; it starts the cooperative task, which runs up to its
    first suspension point; a task that is already running is left alone. *)
Definition process_start (st : state) : option state :=
  match apkes_process st with
  | PROCESS_NONE => apkes_process_begin st
  | PROCESS_WAITING => Some st
  end.

Definition bootstrap (on_bootstrapped_param : option nat) (st : state) : option state :=
  let st := set_on_bootstrapped on_bootstrapped_param st in
  let st := set_wait_timers_memb
              (memb_init (MAX_TENTATIVE_NEIGHBORS cfg)
                 {| ctimer := None; wt_neighbor := None |}) st in
  let st := emit EvSchemeInit st in
  process_start st.

Definition is_bootstrapped (st : state) : bool :=
  bool_decide (on_bootstrapped st = None).

(** The driver under a sequence of events, each with the answer of
    [etimer_expired]. *)
Fixpoint run_events (evs : list bool) (st : state) : option state :=
  match evs with
  | [] => Some st
  | expired :: evs => st ← apkes_process_thread expired st; run_events evs st
  end.

End Operations.

(** ** Reading the trace *)

Definition is_hello (e : event) : bool :=
  match e with
  | EvSend f => bool_decide (command_frame_identifier f = HELLO_IDENTIFIER)
  | _ => false
  end.

Definition is_callback (e : event) : bool :=
  match e with
  | EvOnBootstrapped _ => true
  | _ => false
  end.

Fixpoint count_events (P : event → bool) (tr : list event) : nat :=
  match tr with
  | [] => 0
  | e :: tr => ((if P e then 1 else 0) + count_events P tr)%nat
  end.

(** How many of the events delivered to the driver found the round timer
    expired. *)
Definition expiries (evs : list bool) : nat := length (filter (λ b, b = true) evs).

(** Where the driver stands when the round timer has expired [k] times
    since [bootstrap(cb)], [tr0] being the trace before [bootstrap]: before
    the last round it waits in round [k + 1], having sent [k + 1] HELLOs and
    not yet called back; afterwards it has ended with the callback as its
    last act, after [ROUNDS] HELLOs. *)
Definition driver_after (cfg : config) (tr0 : list event) (cb : nat) (k : Z)
    (st : state) : Prop :=
  if decide (k < ROUNDS cfg) then
    apkes_process st = PROCESS_WAITING
    ∧ i st = k + 1
    ∧ on_bootstrapped st = Some cb
    ∧ ∃ tr, trace st = tr0 ++ tr
        ∧ count_events is_callback tr = 0%nat
        ∧ Z.of_nat (count_events is_hello tr) = k + 1
  else
    apkes_process st = PROCESS_NONE
    ∧ on_bootstrapped st = None
    ∧ ∃ tr, trace st = tr0 ++ tr ++ [EvOnBootstrapped cb]
        ∧ count_events is_callback tr = 0%nat
        ∧ Z.of_nat (count_events is_hello tr) = ROUNDS cfg.

(** ** A small instance *)

(** The packet buffer of a node that receives the frame [f]: the bytes that
    were transmitted, followed by what its buffer held before. *)
Definition received (f : frame) (stale : list Z) : frame :=
  set_payload (take (datalen f - 1) (payload f) ++ stale) f.

(** A provider that shares a single secret with everybody. *)
Definition one_secret_scheme : apkes_scheme :=
  {| get_secret_with_hello_sender := λ _, Some (replicate 16 1);
     get_secret_with_helloack_sender := λ _, Some (replicate 16 1) |}.

(** Collaborators of a node on which every frame verifies, the neighbor
    table is full, and a unicast frame is a replay when its counter is not
    above the last one seen. *)
Definition simple_collaborators : collaborators :=
  {| coresec_decrypt_verify_unicast := λ _ f, Some f;
     neighbor_new := λ table, (None, table);
     neighbor_update_ids := λ f bytes,
       {| extended_addr := addr_sender f; short_addr := bytes |};
     neighbor_store_trailer := λ n _ _, n;
     anti_replay_was_replayed := λ info f,
       if decide (frame_counter f ≤ last_unicast_counter info) then (true, info)
       else (false, {| last_broadcast_counter := last_broadcast_counter info;
                       last_unicast_counter := frame_counter f |});
     aes_128_padded_encrypt := λ key data, zip_with Z.lxor key data;
     csprng_rand := λ k, replicate 8 (Z.of_nat k);
     random_rand := λ _, 40000 |}.

(** The same node with room in its neighbor table: a new entry takes the
    next unused index and starts out zeroed. *)
Definition roomy_collaborators : collaborators :=
  {| coresec_decrypt_verify_unicast := λ _ f, Some f;
     neighbor_new := λ table,
       let p := fresh (dom table) in
       (Some p,
        <[p := {| ids := {| extended_addr := replicate 8 0;
                            short_addr := [0; 0] |};
                  anti_replay := {| last_broadcast_counter := 0;
                                    last_unicast_counter := 0 |};
                  status := NEIGHBOR_PERMANENT;
                  local_index := Z.of_nat p;
                  metadata := replicate 16 0;
                  pairwise_key := replicate 16 0;
                  expiration_time := 0 |}]> table);
     neighbor_update_ids := λ f bytes,
       {| extended_addr := addr_sender f; short_addr := bytes |};
     neighbor_store_trailer := λ n _ _, n;
     anti_replay_was_replayed := λ info f,
       if decide (frame_counter f ≤ last_unicast_counter info) then (true, info)
       else (false, {| last_broadcast_counter := last_broadcast_counter info;
                       last_unicast_counter := frame_counter f |});
     aes_128_padded_encrypt := λ key data, zip_with Z.lxor key data;
     csprng_rand := λ k, replicate 8 (Z.of_nat k + 16);
     random_rand := λ _, 40000 |}.

Definition a_neighbor (s : neighbor_status) : neighbor :=
  {| ids := {| extended_addr := [2; 0; 0; 0; 0; 0; 0; 0]; short_addr := [2; 0] |};
     anti_replay := {| last_broadcast_counter := 0; last_unicast_counter := 5 |};
     status := s;
     local_index := 0;
     metadata := replicate 16 7;
     pairwise_key := replicate 16 9;
     expiration_time := 100 |}.

(** A node with one neighbor (entry 0), guarded by the wait-timer in slot 0
    of a pool of two. *)
Definition a_state (s : neighbor_status) : state :=
  {| neighbors := {[ 0%nat := a_neighbor s ]};
     wait_timers_memb :=
       [(1%nat, {| ctimer := Some 300; wt_neighbor := Some 0%nat |});
        (0%nat, {| ctimer := None; wt_neighbor := None |})];
     our_challenge := replicate 8 3;
     on_bootstrapped := None;
     apkes_process := PROCESS_NONE;
     i := 0;
     node_id := 1;
     ebeap_broadcast_key := replicate 16 0;
     clock_seconds := 50;
     csprng_calls := 0;
     random_calls := 0;
     trace := [] |}.

Definition a_frame (cmd : Z) (data : list Z) : frame :=
  {| command_frame_identifier := cmd;
     addr_sender := [2; 0; 0; 0; 0; 0; 0; 0];
     addr_receiver := [1; 0; 0; 0; 0; 0; 0; 0];
     security_level := 2;
     key_id_mode := 0;
     key_index := 0;
     key_source_bytes_0_1 := 0;
     frame_counter := 4;
     payload := data;
     datalen := S (length data) |}.

(** ** The round timer in the trace *)

Definition is_etimer_set (e : event) : bool :=
  match e with
  | EvEtimerSet _ => true
  | _ => false
  end.

Definition is_etimer_reset (e : event) : bool :=
  match e with
  | EvEtimerReset => true
  | _ => false
  end.

(** The round timer when it has expired [k] times since [bootstrap] was
    called with the callback reference [callback] (possibly [NULL]): set
    once, and reset after every expiry but the last. *)
Definition timer_after (cfg : config) (tr0 : list event) (callback : option nat)
    (k : Z) (st : state) : Prop :=
  if decide (k < ROUNDS cfg) then
    apkes_process st = PROCESS_WAITING
    ∧ i st = k + 1
    ∧ on_bootstrapped st = callback
    ∧ ∃ tr, trace st = tr0 ++ tr
        ∧ count_events is_etimer_set tr = 1%nat
        ∧ Z.of_nat (count_events is_etimer_reset tr) = k
  else
    apkes_process st = PROCESS_NONE
    ∧ ∃ tr, trace st = tr0 ++ tr
        ∧ count_events is_etimer_set tr = 1%nat
        ∧ Z.of_nat (count_events is_etimer_reset tr) = ROUNDS cfg - 1.

(** What the handlers of inbound frames and of the wait-timers leave
    alone: the size of the wait-timer pool, [our_challenge], the callback
    reference, the bootstrap driver and [node_id]. *)
Definition driver_untouched (st st' : state) : Prop :=
  length (wait_timers_memb st') = length (wait_timers_memb st)
  ∧ our_challenge st' = our_challenge st
  ∧ on_bootstrapped st' = on_bootstrapped st
  ∧ apkes_process st' = apkes_process st
  ∧ i st' = i st
  ∧ node_id st' = node_id st.

(** A build with EBEAP encryption: security level 6, 16-byte broadcast
    keys. *)
Definition encrypting_config : config :=
  {| CLOCK_SECOND := 128;
     RANDOM_RAND_MAX := 65535;
     ROUNDS := 6;
     MAX_TENTATIVE_NEIGHBORS := 2;
     EBEAP_WITH_ENCRYPTION := true;
     NEIGHBOR_BROADCAST_KEY_LEN := 16;
     LLSEC802154_SECURITY_LEVEL := 6 |}.

(** The node of [a_state] with both wait-timers in use. *)
Definition a_busy_state (s : neighbor_status) : state :=
  set_wait_timers_memb
    [(1%nat, {| ctimer := Some 300; wt_neighbor := Some 0%nat |});
     (1%nat, {| ctimer := Some 20; wt_neighbor := Some 0%nat |})]
    (a_state s).

End Apkes.

(** * Properties *)

(** ** Byte buffers *)

Lemma length_read_bytes buf off n : length (read_bytes buf off n) = n.
Proof. unfold read_bytes. by rewrite length_fmap, length_seq. Qed.

Lemma read_bytes_lookup buf off n k :
  (k < n)%nat → read_bytes buf off n !! k = Some (default 0 (buf !! (off + k)%nat)).
Proof.
  intros Hk. unfold read_bytes.
  rewrite list_lookup_fmap, lookup_seq_lt by done. done.
Qed.

Lemma read_bytes_exact (buf rest : list Z) :
  read_bytes (buf ++ rest) 0 (length buf) = buf.
Proof.
  apply list_eq; intros k.
  destruct (decide (k < length buf)%nat) as [Hk|Hk].
  - rewrite read_bytes_lookup by done. simpl.
    rewrite lookup_app_l by done.
    destruct (lookup_lt_is_Some_2 buf k Hk) as [x Hx]. by rewrite Hx.
  - rewrite !lookup_ge_None_2; [done | lia |].
    rewrite length_read_bytes. lia.
Qed.


Lemma read_bytes_all (buf : list Z) : read_bytes buf 0 (length buf) = buf.
Proof. rewrite <- (app_nil_r buf) at 1. apply read_bytes_exact. Qed.

Lemma length_memcpy dst off src n : length (memcpy dst off src n) = length dst.
Proof. unfold memcpy. apply length_inserts. Qed.

(** What [memcpy] wrote can be read back, if it fits the destination. *)
Lemma memcpy_read dst off src n :
  (off + n ≤ length dst)%nat →
  read_bytes (memcpy dst off src n) off n = read_bytes src 0 n.
Proof.
  intros Hfit. apply list_eq; intros k.
  destruct (decide (k < n)%nat) as [Hk|Hk].
  - rewrite (read_bytes_lookup _ off) by done. unfold memcpy.
    rewrite list_lookup_inserts by (rewrite ?length_read_bytes; lia).
    replace (off + k - off)%nat with k by lia.
    by rewrite read_bytes_lookup.
  - rewrite !lookup_ge_None_2; [done|..]; rewrite length_read_bytes; lia.
Qed.

(** Reading inside the transmitted part of a buffer does not see what
    follows it. *)
Lemma read_bytes_take_app (buf rest : list Z) m off n :
  (off + n ≤ m)%nat → (m ≤ length buf)%nat →
  read_bytes (take m buf ++ rest) off n = read_bytes buf off n.
Proof.
  intros Hin Hm. apply list_eq; intros k.
  destruct (decide (k < n)%nat) as [Hk|Hk].
  - rewrite !read_bytes_lookup by done.
    rewrite lookup_app_l by (rewrite length_take; lia).
    rewrite lookup_take_lt by lia. done.
  - rewrite !lookup_ge_None_2; [done|..]; rewrite length_read_bytes; lia.
Qed.

Lemma wrap16_small z : 0 ≤ z < 2 ^ 16 → wrap16 z = z.
Proof. intros. unfold wrap16. by apply Z.mod_small. Qed.

(** ** Flash helper *)

Module FlashFacts.
Import Flash.

Section WithLayout.
Context (L : layout).

Lemma append_whole buf st :
  Z.of_nat (length buf) < 2 ^ 16 →
  apkes_flash_append_keying_material L buf (Z.of_nat (length buf)) st =
    {| flash := xmem_pwrite buf
                  (APKES_FLASH_KEYING_MATERIAL_OFFSET L + keying_material_offset st)
                  (flash st);
       keying_material_offset :=
         wrap16 (keying_material_offset st + Z.of_nat (length buf)) |}.
Proof.
  intros Hlen. unfold apkes_flash_append_keying_material.
  rewrite wrap16_small by lia. by rewrite Nat2Z.id, read_bytes_all.
Qed.

(** The log after a run of appends that does not wrap the cursor: the cursor
    has advanced by the total length, the appended bytes lie behind the old
    cursor in append order, and the rest of the flash is as before. *)
Lemma append_all_log chunks : ∀ st,
  0 ≤ keying_material_offset st →
  keying_material_offset st + Z.of_nat (length (concat chunks)) < 2 ^ 16 →
  keying_material_offset (append_all L chunks st)
    = keying_material_offset st + Z.of_nat (length (concat chunks))
  ∧ ∀ a, flash (append_all L chunks st) a =
         let start := APKES_FLASH_KEYING_MATERIAL_OFFSET L + keying_material_offset st in
         if decide (start ≤ a < start + Z.of_nat (length (concat chunks)))
         then default 0 (concat chunks !! Z.to_nat (a - start))
         else flash st a.
Proof.
  induction chunks as [|c chunks IH]; intros st Hpos Hfit.
  - simpl. split; [lia|]. intros a. by rewrite decide_False by lia.
  - simpl in *. rewrite length_app in Hfit.
    unfold append_all in *. simpl.
    rewrite append_whole by lia.
    set (st1 := {| flash := _ |}).
    assert (Hc : keying_material_offset st1
                 = keying_material_offset st + Z.of_nat (length c)).
    { subst st1. simpl. apply wrap16_small. lia. }
    destruct (IH st1) as [Hcur Hmem]; [lia | lia |].
    split; [rewrite Hcur, Hc, length_app; lia|].
    intros a. rewrite Hmem, Hc, length_app. clear Hmem Hcur IH.
    destruct (decide (APKES_FLASH_KEYING_MATERIAL_OFFSET L
                      + keying_material_offset st ≤ a
                      < APKES_FLASH_KEYING_MATERIAL_OFFSET L
                        + keying_material_offset st + Z.of_nat (length c)))
      as [Hin|Hout].
    + rewrite decide_False by lia. rewrite decide_True by lia.
      subst st1. simpl. unfold xmem_pwrite. rewrite decide_True by lia.
      rewrite lookup_app_l by lia. done.
    + case_decide as Hin2.
      * rewrite decide_True by lia. rewrite lookup_app_r by lia.
        do 2 f_equal. lia.
      * rewrite decide_False by lia.
        subst st1. simpl. unfold xmem_pwrite. by rewrite decide_False by lia.
Qed.

Lemma restore_all_id reads : ∀ st, restore_all L reads st = st.
Proof. induction reads as [|r reads IH]; intros st; simpl; [done | apply IH]. Qed.

(** C9: after [erase] the write cursor is zero, and a [restore] of the total
    length at offset 0 returns the appended byte strings, concatenated in
    append order, for every sequence of appends whose total length the
    16-bit cursor and the 16-bit [len] of [restore] can hold; in particular
    erase, append "AB", append "CD", restore 4 bytes at offset 0 gives
    "ABCD". *)
Theorem erase_append_restore (st : state) (chunks : list (list Z)) :
  Z.of_nat (length (concat chunks)) < 2 ^ 16 →
  keying_material_offset (apkes_flash_erase_keying_material L st) = 0
  ∧ (apkes_flash_restore_keying_material L
       (Z.of_nat (length (concat chunks))) 0
       (append_all L chunks (apkes_flash_erase_keying_material L st))).1
    = concat chunks
  ∧ (apkes_flash_restore_keying_material L 4 0
       (apkes_flash_append_keying_material L [67; 68] 2
          (apkes_flash_append_keying_material L [65; 66] 2
             (apkes_flash_erase_keying_material L st)))).1
    = [65; 66; 67; 68].
Proof.
  intros Hfit.
  assert (Hgen : ∀ cs, Z.of_nat (length (concat cs)) < 2 ^ 16 →
            (apkes_flash_restore_keying_material L
               (Z.of_nat (length (concat cs))) 0
               (append_all L cs (apkes_flash_erase_keying_material L st))).1
            = concat cs).
  { intros cs Hcs.
    destruct (append_all_log cs (apkes_flash_erase_keying_material L st))
      as [_ Hmem]; [simpl; lia | simpl; lia |].
    change (keying_material_offset (apkes_flash_erase_keying_material L st))
      with 0 in Hmem.
    cbv zeta in Hmem.
    unfold apkes_flash_restore_keying_material, xmem_pread. cbn [fst].
    rewrite !wrap16_small by lia.
    apply list_eq; intros k. rewrite list_lookup_fmap.
    destruct (decide (k < length (concat cs))%nat) as [Hk|Hk].
    - rewrite lookup_seqZ_lt by lia. simpl. rewrite Hmem.
      rewrite decide_True by lia.
      replace (Z.to_nat _) with k by lia.
      destruct (lookup_lt_is_Some_2 (concat cs) k Hk) as [x Hx]. by rewrite Hx.
    - rewrite lookup_seqZ_ge by lia. simpl.
      symmetry. apply lookup_ge_None_2. lia. }
  split; [done|]. split; [by apply Hgen|].
  apply (Hgen [[65; 66]; [67; 68]]). simpl. lia.
Qed.

(** C10: [apkes_flash_restore_keying_material] leaves the write cursor (and
    the flash) alone, so an append after any number of restores writes what
    and where it would write without them; [erase] sets the cursor to zero
    and [append] advances it by [len] modulo 2^16. *)
Theorem restore_keeps_cursor (st : state) (reads : list (Z * Z))
    (len offset : Z) (keying_material : list Z) (n : Z) :
  (apkes_flash_restore_keying_material L len offset st).2 = st
  ∧ keying_material_offset (restore_all L reads st) = keying_material_offset st
  ∧ apkes_flash_append_keying_material L keying_material n (restore_all L reads st)
    = apkes_flash_append_keying_material L keying_material n st
  ∧ keying_material_offset (apkes_flash_erase_keying_material L st) = 0
  ∧ keying_material_offset (apkes_flash_append_keying_material L keying_material n st)
    = wrap16 (keying_material_offset st + wrap16 n).
Proof. rewrite restore_all_id. done. Qed.

End WithLayout.

(** At a concrete log: three appends of 2, 1 and 3 bytes. *)
Lemma erase_append_restore_witness :
  Z.of_nat (length (concat [[1; 2]; [3]; [4; 5; 6]])) < 2 ^ 16
  ∧ keying_material_offset (apkes_flash_erase_keying_material sky_layout blank) = 0
  ∧ (apkes_flash_restore_keying_material sky_layout 6 0
       (append_all sky_layout [[1; 2]; [3]; [4; 5; 6]]
          (apkes_flash_erase_keying_material sky_layout blank))).1
    = [1; 2; 3; 4; 5; 6].
Proof.
  assert (H : Z.of_nat (length (concat [[1; 2]; [3]; [4; 5; 6]])) < 2 ^ 16)
    by (simpl; lia).
  split; [exact H|].
  destruct (erase_append_restore sky_layout blank [[1; 2]; [3]; [4; 5; 6]] H)
    as (H0 & H1 & _).
  split; [exact H0 | exact H1].
Defined.

Section RandomAccess.
Context (L : layout).

(** X18: every record of the log can be read back on its own: after [erase]
    and a sequence of appends [restore], given the length of one of the
    appended byte strings and the total length of those appended before it,
    returns that byte string, whatever was appended after it; and the write
    cursor stands at the total length.  The total must fit the 16-bit
    cursor. *)
Theorem restore_appended_record (st : state) (before after : list (list Z))
    (record : list Z) :
  Z.of_nat (length (concat (before ++ record :: after))) < 2 ^ 16 →
  (apkes_flash_restore_keying_material L
     (Z.of_nat (length record)) (Z.of_nat (length (concat before)))
     (append_all L (before ++ record :: after)
        (apkes_flash_erase_keying_material L st))).1
  = record
  ∧ keying_material_offset
      (append_all L (before ++ record :: after)
         (apkes_flash_erase_keying_material L st))
    = Z.of_nat (length (concat (before ++ record :: after))).
Proof.
  intros Hfit.
  destruct (append_all_log L (before ++ record :: after)
              (apkes_flash_erase_keying_material L st))
    as [Hcursor Hmem]; [simpl; lia | simpl; lia |].
  change (keying_material_offset (apkes_flash_erase_keying_material L st))
    with 0 in Hmem, Hcursor.
  cbv zeta in Hmem. split; [|by rewrite Hcursor].
  rewrite concat_app, !length_app in Hfit. simpl in Hfit.
  rewrite length_app in Hfit.
  unfold apkes_flash_restore_keying_material, xmem_pread. cbn [fst].
  rewrite !wrap16_small by lia.
  apply list_eq; intros k. rewrite list_lookup_fmap.
  destruct (decide (k < length record)%nat) as [Hk|Hk].
  - rewrite lookup_seqZ_lt by lia. simpl. rewrite Hmem.
    rewrite decide_True
      by (rewrite concat_app, !length_app; simpl; rewrite length_app; lia).
    replace (Z.to_nat _) with (length (concat before) + k)%nat by lia.
    rewrite concat_app. simpl.
    rewrite lookup_app_r by lia.
    replace (length (concat before) + k - length (concat before))%nat
      with k by lia.
    rewrite lookup_app_l by done.
    destruct (lookup_lt_is_Some_2 record k Hk) as [x Hx]. by rewrite Hx.
  - rewrite lookup_seqZ_ge by lia. simpl.
    symmetry. apply lookup_ge_None_2. lia.
Qed.

End RandomAccess.

(** The second of three records. *)
Lemma restore_appended_record_witness :
  Z.of_nat (length (concat ([[1; 2]] ++ [3] :: [[4; 5; 6]]))) < 2 ^ 16
  ∧ (apkes_flash_restore_keying_material sky_layout 1 2
       (append_all sky_layout [[1; 2]; [3]; [4; 5; 6]]
          (apkes_flash_erase_keying_material sky_layout blank))).1
    = [3].
Proof.
  assert (H : Z.of_nat (length (concat ([[1; 2]] ++ [3] :: [[4; 5; 6]]))) < 2 ^ 16)
    by (simpl; lia).
  split; [exact H|].
  destruct (restore_appended_record sky_layout blank [[1; 2]] [[4; 5; 6]] [3] H)
    as [Hread _].
  exact Hread.
Defined.

End FlashFacts.

(** ** Handshake engine and bootstrap driver *)

Module ApkesFacts.
Import Apkes.

(** *** Wait-timer pool *)

Lemma memb_alloc_free {A} (m m' : memb A) ptr :
  memb_alloc m = Some (ptr, m') → memb_free m' ptr = m.
Proof.
  revert ptr m'. induction m as [|[count block] m IH]; intros ptr m'; simpl.
  - done.
  - case_decide as Hc.
    + intros [= <- <-]. subst count. done.
    + destruct (memb_alloc m) as [[j m'']|] eqn:Halloc; simpl; [|done].
      intros [= <- <-]. unfold memb_free in *. simpl.
      f_equal. by apply IH.
Qed.

Lemma memb_free_not_inuse {A} (m : memb A) ptr count block :
  m !! ptr = Some (count, block) → (count ≤ 1)%nat →
  memb_inuse (memb_free m ptr) ptr = false.
Proof.
  intros Hptr Hcount. unfold memb_inuse, memb_free.
  rewrite list_lookup_alter_eq, Hptr. simpl.
  rewrite bool_decide_true by lia. done.
Qed.

Lemma count_events_app P tr1 tr2 :
  count_events P (tr1 ++ tr2) = (count_events P tr1 + count_events P tr2)%nat.
Proof. induction tr1 as [|e tr1 IH]; simpl; [done|]. rewrite IH. lia. Qed.

Section Handlers.
Context (cfg : config) `{scheme : apkes_scheme} `{ext : collaborators}.

(** C8: the intermediate product does not overflow 32 bits and the waiting
    period lies in [0, MAX_WAITING_PERIOD], for every [r] in
    [0, RANDOM_RAND_MAX], on a platform whose clock rate and
    [RANDOM_RAND_MAX] keep [MAX_WAITING_PERIOD * RANDOM_RAND_MAX] below 2^32
    (as the defaults do). *)
Theorem waiting_period_bounded (r : Z) :
  0 < CLOCK_SECOND cfg →
  0 < RANDOM_RAND_MAX cfg →
  MAX_WAITING_PERIOD cfg * RANDOM_RAND_MAX cfg < 2 ^ 32 →
  0 ≤ r ≤ RANDOM_RAND_MAX cfg →
  wrap32 (wrap32 (MAX_WAITING_PERIOD cfg) * wrap32 r) = MAX_WAITING_PERIOD cfg * r
  ∧ 0 ≤ waiting_period cfg r ≤ MAX_WAITING_PERIOD cfg.
Proof.
  intros Hclock Hmax Hfit Hr.
  assert (Hw : 0 < MAX_WAITING_PERIOD cfg)
    by (unfold MAX_WAITING_PERIOD, ROUND_DURATION; lia).
  assert (Hprod : 0 ≤ MAX_WAITING_PERIOD cfg * r < 2 ^ 32) by nia.
  assert (Heq : wrap32 (wrap32 (MAX_WAITING_PERIOD cfg) * wrap32 r)
                = MAX_WAITING_PERIOD cfg * r).
  { unfold wrap32.
    rewrite (Z.mod_small (MAX_WAITING_PERIOD cfg)) by nia.
    rewrite (Z.mod_small r) by nia.
    by apply Z.mod_small. }
  split; [done|]. unfold waiting_period. rewrite Heq. split.
  - apply Z.div_pos; lia.
  - apply Z.div_le_upper_bound; [done|]. nia.
Qed.

(** C6: a HELLO from a sender that is already in the neighbor table leaves
    the whole state as it was: the slot taken at entry is back in the pool,
    the neighbor table, the timers and the frames sent are untouched. *)
Theorem on_hello_known_sender (p : nat) (f : frame) (st : state) :
  on_hello cfg (Some p) f st = Some st.
Proof.
  unfold on_hello.
  destruct (memb_alloc (wait_timers_memb st)) as [[slot m]|] eqn:Halloc; [|done].
  f_equal. apply memb_alloc_free in Halloc.
  destruct st; simpl in *. by rewrite Halloc.
Qed.

(** C1: a HELLOACK changes nothing (no neighbor entry is created or
    modified, no ACK is sent) unless the provider knows a secret for the
    recovered identity, the frame verifies under it, and the first
    [CHALLENGE_LEN] bytes of the payload equal [our_challenge]. *)
Theorem on_helloack_invalid (sender : option nat) (f : frame) (st : state) :
  ¬ (∃ key f',
       get_secret_with_helloack_sender
         (neighbor_update_ids f (helloack_short_addr cfg f)) = Some key
       ∧ coresec_decrypt_verify_unicast key f = Some f'
       ∧ read_bytes (our_challenge st) 0 CHALLENGE_LEN
         = read_bytes (payload f') 0 CHALLENGE_LEN) →
  on_helloack cfg sender f st = Some st.
Proof.
  intros Hinvalid. unfold on_helloack.
  destruct (get_secret_with_helloack_sender _) as [key|] eqn:Hkey; [|done].
  destruct (coresec_decrypt_verify_unicast key f) as [f'|] eqn:Hverify; [|done].
  unfold memcmp_ne. case_bool_decide as Hchallenge; [|done].
  destruct Hinvalid. eauto.
Qed.

(** C4: [on_ack] calls [neighbor_update], which makes the entry PERMANENT,
    when the sender is known, awaits the ACK and the frame verifies under its
    pairwise key; in every other case the state stays as it is. *)
Theorem on_ack_accepts_iff (sender : option nat) (f : frame) (st : state) :
  (∀ p, sender = Some p → is_Some (neighbors st !! p)) →
  (∀ p n f',
      sender = Some p → neighbors st !! p = Some n →
      status n = NEIGHBOR_TENTATIVE_AWAITING_ACK →
      coresec_decrypt_verify_unicast (pairwise_key n) f = Some f' →
      ∃ st', on_ack sender f st = Some st'
        ∧ trace st' = trace st ++ [EvNeighborUpdate p (payload f')]
        ∧ neighbors st' = <[p := neighbor_update n f' (payload f')]> (neighbors st)
        ∧ status (neighbor_update n f' (payload f')) = NEIGHBOR_PERMANENT)
  ∧ (¬ (∃ p n f',
          sender = Some p ∧ neighbors st !! p = Some n
          ∧ status n = NEIGHBOR_TENTATIVE_AWAITING_ACK
          ∧ coresec_decrypt_verify_unicast (pairwise_key n) f = Some f') →
     on_ack sender f st = Some st).
Proof.
  intros Hknown. split.
  - intros p n f' -> Hn Hstatus Hverify. unfold on_ack.
    rewrite Hn. simpl. rewrite decide_False by (by intros []).
    rewrite Hverify. eexists. split; [done|]. done.
  - intros Hreject. unfold on_ack.
    destruct sender as [p|]; [|done].
    destruct (Hknown p eq_refl) as [n Hn]. rewrite Hn. simpl.
    case_decide as Hstatus; [done|].
    destruct (coresec_decrypt_verify_unicast (pairwise_key n) f) as [f'|] eqn:Hverify;
      [|done].
    destruct Hreject. exists p, n, f'.
    by destruct (decide (status n = NEIGHBOR_TENTATIVE_AWAITING_ACK)).
Qed.

Lemma send_helloack_trace (p : nat) (n : neighbor) (st : state) :
  neighbors st !! p = Some n →
  ∃ f, send_helloack cfg p st = Some (emit (EvSend f) st)
    ∧ command_frame_identifier f = HELLOACK_IDENTIFIER
    ∧ addr_receiver f = extended_addr (ids n).
Proof.
  intros Hn. unfold send_helloack. rewrite Hn. simpl.
  eexists. split; [done|]. by destruct (EBEAP_WITH_ENCRYPTION cfg).
Qed.

(** C5: when a wait-timer expires, [wait_callback] makes the guarded
    neighbor TENTATIVE_AWAITING_ACK and sends a HELLOACK exactly when the
    neighbor is still TENTATIVE; the slot goes back to the pool either way. *)
Theorem wait_callback_spec (ptr : nat) (wt : wait_timer) (p : nat)
    (n : neighbor) (st : state) :
  wait_timers_memb st !! ptr = Some (1%nat, wt) →
  wt_neighbor wt = Some p →
  neighbors st !! p = Some n →
  ∃ st', wait_callback cfg ptr st = Some st'
    ∧ wait_timers_memb st' = <[ptr := (0%nat, wt)]> (wait_timers_memb st)
    ∧ memb_inuse (wait_timers_memb st') ptr = false
    ∧ (status n = NEIGHBOR_TENTATIVE →
       neighbors st'
         = <[p := set_status NEIGHBOR_TENTATIVE_AWAITING_ACK n]> (neighbors st)
       ∧ ∃ f, trace st' = trace st ++ [EvSend f]
           ∧ command_frame_identifier f = HELLOACK_IDENTIFIER
           ∧ addr_receiver f = extended_addr (ids n))
    ∧ (status n ≠ NEIGHBOR_TENTATIVE →
       neighbors st' = neighbors st ∧ trace st' = trace st).
Proof.
  intros Hslot Hguard Hn.
  assert (Hfree : memb_free (wait_timers_memb st) ptr
                  = <[ptr := (0%nat, wt)]> (wait_timers_memb st)).
  { unfold memb_free. apply list_eq; intros k.
    apply lookup_lt_Some in Hslot as Hlt.
    rewrite list_lookup_alter, list_lookup_insert.
    destruct (decide (ptr = k)) as [->|Hne].
    - rewrite decide_True by done. by rewrite Hslot.
    - rewrite decide_False by (by intros [? ?]). done. }
  assert (Hunused : memb_inuse (<[ptr := (0%nat, wt)]> (wait_timers_memb st)) ptr
                    = false).
  { rewrite <- Hfree. eapply memb_free_not_inuse; [done|lia]. }
  unfold wait_callback. rewrite Hslot. simpl. rewrite Hguard. simpl.
  rewrite Hn. simpl.
  destruct (decide (status n = NEIGHBOR_TENTATIVE)) as [Hs|Hs].
  - set (st1 := set_neighbors _ st).
    destruct (send_helloack_trace p (set_status NEIGHBOR_TENTATIVE_AWAITING_ACK n) st1)
      as (f & -> & Hid & Hdest).
    { subst st1. simpl. apply lookup_insert_eq. }
    simpl. eexists. split; [done|]. simpl. rewrite Hfree.
    split; [done|]. split; [done|]. split; [|done].
    intros _. split; [done|]. by exists f.
  - simpl. eexists. split; [done|]. simpl. rewrite Hfree.
    split; [done|]. split; [done|]. split; done.
Qed.

(** C7: a HELLOACK from a PERMANENT neighbor that the neighbor's replay
    state classifies as a replay leaves the metadata, the pairwise key, the
    ids and the status of the entry as they were, touches no other entry and
    sends nothing. *)
Theorem on_helloack_replayed (p : nat) (n : neighbor) (f : frame) (st : state) :
  neighbors st !! p = Some n →
  status n = NEIGHBOR_PERMANENT →
  (∀ key f',
      get_secret_with_helloack_sender
        (neighbor_update_ids f (helloack_short_addr cfg f)) = Some key →
      coresec_decrypt_verify_unicast key f = Some f' →
      (anti_replay_was_replayed (anti_replay n) f').1 = true) →
  ∃ st' n', on_helloack cfg (Some p) f st = Some st'
    ∧ neighbors st' !! p = Some n'
    ∧ metadata n' = metadata n
    ∧ pairwise_key n' = pairwise_key n
    ∧ ids n' = ids n
    ∧ status n' = status n
    ∧ (∀ q, q ≠ p → neighbors st' !! q = neighbors st !! q)
    ∧ trace st' = trace st.
Proof.
  intros Hn Hstatus Hreplay. unfold on_helloack.
  destruct (get_secret_with_helloack_sender _) as [key|] eqn:Hkey;
    [|by exists st, n].
  destruct (coresec_decrypt_verify_unicast key f) as [f'|] eqn:Hverify;
    [|by exists st, n].
  destruct (memcmp_ne _ _ _); [by exists st, n|].
  rewrite Hn. simpl. rewrite Hstatus.
  rewrite (Hreplay key f' eq_refl Hverify).
  eexists _, _. split; [done|]. simpl.
  split; [apply lookup_insert_eq|].
  repeat (split; [done|]). split; [|done].
  intros q Hq. by rewrite lookup_insert_ne.
Qed.

Lemma helloack_short_addr_offset (f : frame) :
  EBEAP_WITH_ENCRYPTION cfg = false →
  helloack_short_addr cfg f
  = read_bytes (payload f) (2 * CHALLENGE_LEN + 1 + NEIGHBOR_BROADCAST_KEY_LEN cfg)
      NEIGHBOR_SHORT_ADDR_LEN.
Proof. intros Henc. unfold helloack_short_addr. by rewrite Henc. Qed.

(** C2: without EBEAP encryption, where [neighbor.h] then gives the
    broadcast key no room in the frame ([NEIGHBOR_BROADCAST_KEY_LEN] is 0),
    the HELLOACK that [send_helloack] builds carries the sender's short
    address right behind the two challenges and the local index, and the
    bytes [on_helloack] takes for the peer's short address on receipt of
    that frame are exactly those the sender wrote. *)
Theorem helloack_short_addr_roundtrip (p : nat) (n : neighbor) (st : state)
    (stale : list Z) :
  EBEAP_WITH_ENCRYPTION cfg = false →
  NEIGHBOR_BROADCAST_KEY_LEN cfg = 0%nat →
  neighbors st !! p = Some n →
  ∃ f, send_helloack cfg p st = Some (emit (EvSend f) st)
    ∧ command_frame_identifier f = HELLOACK_IDENTIFIER
    ∧ datalen f
      = (1 + 2 * CHALLENGE_LEN + 1 + NEIGHBOR_SHORT_ADDR_LEN)%nat
    ∧ read_bytes (payload f) (2 * CHALLENGE_LEN + 1) NEIGHBOR_SHORT_ADDR_LEN
      = uint16_bytes (node_id st)
    ∧ helloack_short_addr cfg (received f stale) = uint16_bytes (node_id st).
Proof.
  intros Henc Hlen Hn. unfold send_helloack. rewrite Hn, Henc. simpl.
  eexists. split; [done|]. split; [done|]. split; [done|].
  set (pl := memcpy _ _ (uint16_bytes (node_id st)) _).
  assert (Hpl : length pl = 127%nat) by (subst pl; by rewrite !length_memcpy).
  assert (Hwritten : read_bytes pl 17 2 = uint16_bytes (node_id st)).
  { subst pl. rewrite memcpy_read.
    - apply (read_bytes_all (uint16_bytes (node_id st))).
    - rewrite !length_memcpy. simpl. lia. }
  split; [exact Hwritten|].
  rewrite helloack_short_addr_offset by done. rewrite Hlen.
  unfold received. simpl.
  rewrite <- Hwritten. apply (read_bytes_take_app pl stale 19 17 2); lia.
Qed.

(** *** Bootstrap driver *)

Lemma broadcast_hello_trace (st : state) :
  ∃ f, trace (broadcast_hello st) = trace st ++ [EvSend f]
    ∧ is_hello (EvSend f) = true
    ∧ on_bootstrapped (broadcast_hello st) = on_bootstrapped st
    ∧ i (broadcast_hello st) = i st.
Proof. unfold broadcast_hello. simpl. eexists. split; [done|]. done. Qed.

(** The loop test, reached with [i = k + 1] after [k] rounds. *)
Lemma apkes_process_rounds_spec tr0 cb k tr st :
  0 ≤ k ≤ ROUNDS cfg →
  i st = k + 1 →
  on_bootstrapped st = Some cb →
  trace st = tr0 ++ tr →
  count_events is_callback tr = 0%nat →
  Z.of_nat (count_events is_hello tr) = k →
  ∃ st', apkes_process_rounds cfg st = Some st' ∧ driver_after cfg tr0 cb k st'.
Proof.
  intros Hk Hi Hcb Htr Hnone Hhellos.
  unfold apkes_process_rounds, driver_after. rewrite Hi, Hcb.
  destruct (decide (k + 1 ≤ ROUNDS cfg)) as [Hmore|Hlast].
  - destruct (broadcast_hello_trace st) as (f & Hsent & Hf & Hcb' & Hi').
    generalize dependent (broadcast_hello st). intros st2 Hsent Hcb' Hi'.
    eexists. split; [done|]. rewrite decide_True by lia. simpl.
    split; [done|]. split; [congruence|]. split; [congruence|].
    exists (tr ++ [EvSend f]). rewrite Hsent, Htr, <- app_assoc.
    split; [done|]. rewrite !count_events_app. simpl. simpl in Hf.
    rewrite Hf. lia.
  - simpl. eexists. split; [done|]. rewrite decide_False by lia. simpl.
    split; [done|]. split; [done|].
    exists tr. rewrite Htr, <- app_assoc. split; [done|]. split; [done|]. lia.
Qed.

Lemma apkes_process_thread_spec tr0 cb k expired st :
  0 ≤ k → ROUNDS cfg ≤ 254 →
  driver_after cfg tr0 cb k st →
  ∃ st', apkes_process_thread cfg expired st = Some st'
    ∧ driver_after cfg tr0 cb (if expired then k + 1 else k) st'.
Proof.
  intros Hk Hmax Hst. unfold apkes_process_thread.
  destruct (decide (k < ROUNDS cfg)) as [Hrun|Hdone].
  - assert (Hst' := Hst). unfold driver_after in Hst'.
    rewrite decide_True in Hst' by done.
    destruct Hst' as (Hlc & Hi & Hcb & tr & Htr & Hnone & Hhellos).
    rewrite Hlc. destruct expired; [|by exists st].
    assert (Hwrap : wrap8 (k + 1 + 1) = k + 1 + 1)
      by (unfold wrap8; apply Z.mod_small; lia).
    rewrite Hi.
    destruct (decide (k + 1 ≠ ROUNDS cfg)).
    + apply (apkes_process_rounds_spec tr0 cb (k + 1) (tr ++ [EvEtimerReset]));
        simpl; rewrite ?Hi, ?Hwrap, ?Htr, ?count_events_app, <- ?app_assoc; simpl;
        try done; lia.
    + apply (apkes_process_rounds_spec tr0 cb (k + 1) tr);
        simpl; rewrite ?Hi, ?Hwrap; try done; lia.
  - assert (Hst' := Hst). unfold driver_after in Hst'.
    rewrite decide_False in Hst' by done.
    destruct Hst' as (Hlc & _). rewrite Hlc. exists st. split; [done|].
    unfold driver_after in *. rewrite decide_False in Hst by done.
    destruct expired; by rewrite decide_False by lia.
Qed.

Lemma run_events_spec tr0 cb evs : ∀ k st,
  0 ≤ k → ROUNDS cfg ≤ 254 →
  driver_after cfg tr0 cb k st →
  ∃ st', run_events cfg evs st = Some st'
    ∧ driver_after cfg tr0 cb (k + Z.of_nat (expiries evs)) st'.
Proof.
  induction evs as [|expired evs IH]; intros k st Hk Hmax Hst.
  - exists st. split; [done|]. unfold expiries. simpl.
    by replace (k + Z.of_nat 0) with k by lia.
  - destruct (apkes_process_thread_spec tr0 cb k expired st Hk Hmax Hst)
      as (st1 & Hstep & Hst1).
    simpl. rewrite Hstep. simpl.
    assert (Hk1 : 0 ≤ (if expired then k + 1 else k)) by (destruct expired; lia).
    destruct (IH _ st1 Hk1 Hmax Hst1) as (st' & Hrun & Hst').
    exists st'. split; [done|].
    unfold expiries in *. destruct expired.
    + rewrite filter_cons_True by done. simpl length.
      by replace (k + Z.of_nat (S (length (filter (λ b, b = true) evs))))
        with (k + 1 + Z.of_nat (length (filter (λ b, b = true) evs))) by lia.
    + by rewrite filter_cons_False by done.
Qed.

Lemma bootstrap_spec cb st0 :
  0 ≤ ROUNDS cfg →
  apkes_process st0 = PROCESS_NONE →
  ∃ st1, bootstrap cfg (Some cb) st0 = Some st1
    ∧ driver_after cfg (trace st0) cb 0 st1.
Proof.
  intros Hrounds Hlc. unfold bootstrap, process_start. simpl. rewrite Hlc.
  unfold apkes_process_begin.
  apply (apkes_process_rounds_spec (trace st0) cb 0
           [EvSchemeInit; EvEtimerSet (ROUND_DURATION cfg)]);
    simpl; rewrite <- ?app_assoc; try done; lia.
Qed.

(** C3: after [bootstrap(cb)] the driver calls [cb] exactly once, when the
    round timer has expired for the [ROUNDS]-th time, after the [ROUNDS]-th
    HELLO, and then clears the callback reference; [is_bootstrapped] is true
    exactly when the reference is null: false until then and true from then
    on.  [ROUNDS] has to leave room for the 8-bit round counter to pass
    it. *)
Theorem bootstrap_calls_back_once (cb : nat) (evs : list bool) (st0 : state) :
  0 ≤ ROUNDS cfg ≤ 254 →
  apkes_process st0 = PROCESS_NONE →
  ∃ st1 st' tr,
    bootstrap cfg (Some cb) st0 = Some st1
    ∧ run_events cfg evs st1 = Some st'
    ∧ trace st' = trace st0 ++ tr
    ∧ (is_bootstrapped st' = true ↔ on_bootstrapped st' = None)
    ∧ (Z.of_nat (expiries evs) < ROUNDS cfg →
       is_bootstrapped st' = false
       ∧ count_events is_callback tr = 0%nat
       ∧ Z.of_nat (count_events is_hello tr) = Z.of_nat (expiries evs) + 1)
    ∧ (ROUNDS cfg ≤ Z.of_nat (expiries evs) →
       is_bootstrapped st' = true
       ∧ count_events is_callback tr = 1%nat
       ∧ ∃ tr', tr = tr' ++ [EvOnBootstrapped cb]
           ∧ count_events is_callback tr' = 0%nat
           ∧ Z.of_nat (count_events is_hello tr') = ROUNDS cfg).
Proof.
  intros [Hmin Hmax] Hlc.
  destruct (bootstrap_spec cb st0 Hmin Hlc) as (st1 & Hboot & Hst1).
  destruct (run_events_spec (trace st0) cb evs 0 st1 ltac:(lia) Hmax Hst1)
    as (st' & Hrun & Hst').
  rewrite Z.add_0_l in Hst'. unfold driver_after in Hst'.
  assert (Hdef : is_bootstrapped st' = true ↔ on_bootstrapped st' = None).
  { unfold is_bootstrapped. apply bool_decide_eq_true. }
  destruct (decide (Z.of_nat (expiries evs) < ROUNDS cfg)) as [Hearly|Hlate].
  - destruct Hst' as (_ & _ & Hcb & tr & Htr & Hnone & Hhellos).
    exists st1, st', tr. do 4 (split; [done|]). split; [|lia].
    intros _. split; [|done].
    unfold is_bootstrapped. rewrite Hcb. done.
  - destruct Hst' as (_ & Hcb & tr & Htr & Hnone & Hhellos).
    exists st1, st', (tr ++ [EvOnBootstrapped cb]).
    do 4 (split; [done|]). split; [lia|].
    intros _. split; [by apply Hdef|].
    split; [rewrite count_events_app, Hnone; done|]. by exists tr.
Qed.

End Handlers.

(** *** Scenarios *)

(** A HELLO from an unknown peer takes the free slot of the pool and creates
    a tentative neighbor whose metadata is the peer's challenge followed by
    ours; the timer is set to 5 * 128 * 40000 / 65535 ticks. *)
Example hello_creates_tentative :
  (λ st, (wait_timers_memb st,
          (λ n, (status n, short_addr (ids n), metadata n, expiration_time n))
            <$> neighbors st !! 1%nat))
    <$> @on_hello default_config roomy_collaborators None
          (a_frame HELLO_IDENTIFIER [1; 2; 3; 4; 5; 6; 7; 8; 2; 0])
          (a_state NEIGHBOR_PERMANENT)
  = Some ([(1%nat, {| ctimer := Some 300; wt_neighbor := Some 0%nat |});
           (1%nat, {| ctimer := Some 390; wt_neighbor := Some 1%nat |})],
          Some (NEIGHBOR_TENTATIVE, [2; 0],
                [1; 2; 3; 4; 5; 6; 7; 8; 16; 16; 16; 16; 16; 16; 16; 16], 60)).
Proof. vm_compute. reflexivity. Qed.

(** HELLO flood: with both slots of the pool taken, the next HELLO is
    dropped. *)
Example hello_flood :
  (st ← @on_hello default_config roomy_collaborators None
          (a_frame HELLO_IDENTIFIER [1; 2; 3; 4; 5; 6; 7; 8; 2; 0])
          (a_state NEIGHBOR_PERMANENT);
   @on_hello default_config roomy_collaborators None
     (a_frame HELLO_IDENTIFIER [8; 7; 6; 5; 4; 3; 2; 1; 3; 0]) st)
  = @on_hello default_config roomy_collaborators None
      (a_frame HELLO_IDENTIFIER [1; 2; 3; 4; 5; 6; 7; 8; 2; 0])
      (a_state NEIGHBOR_PERMANENT).
Proof. vm_compute. reflexivity. Qed.

(** Responder side of the handshake: HELLO, expiry of the wait-timer, ACK. *)
Example responder_handshake :
  (st ← @on_hello default_config roomy_collaborators None
          (a_frame HELLO_IDENTIFIER [1; 2; 3; 4; 5; 6; 7; 8; 2; 0])
          (a_state NEIGHBOR_PERMANENT);
   st ← wait_callback default_config 1 st;
   st ← @on_ack roomy_collaborators (Some 1%nat) (a_frame ACK_IDENTIFIER [0]) st;
   Some (status <$> neighbors st !! 1%nat,
         memb_inuse (wait_timers_memb st) 1,
         (λ e, match e with
               | EvSend f => Some (command_frame_identifier f, datalen f)
               | _ => None
               end) <$> trace st))
  = Some (Some NEIGHBOR_PERMANENT, false,
          [Some (HELLOACK_IDENTIFIER, 20%nat); None]).
Proof. vm_compute. reflexivity. Qed.

(** Initiator side: a HELLOACK that answers our challenge makes the unknown
    sender a permanent neighbor and is acknowledged. *)
Example initiator_handshake :
  (st ← @on_helloack default_config one_secret_scheme roomy_collaborators None
          (a_frame HELLOACK_IDENTIFIER
             (replicate 8 3 ++ replicate 8 4 ++ [0; 2; 0]))
          (a_state NEIGHBOR_PERMANENT);
   Some (status <$> neighbors st !! 1%nat,
         (λ e, match e with
               | EvSend f => Some (command_frame_identifier f, datalen f)
               | _ => None
               end) <$> trace st))
  = Some (Some NEIGHBOR_PERMANENT, [None; Some (ACK_IDENTIFIER, 2%nat)]).
Proof. vm_compute. reflexivity. Qed.

(** *** The theorems at the small instance *)

Lemma waiting_period_bounded_witness :
  (0 ≤ 40000 ≤ RANDOM_RAND_MAX default_config)
  ∧ wrap32 (wrap32 (MAX_WAITING_PERIOD default_config) * wrap32 40000)
    = MAX_WAITING_PERIOD default_config * 40000
  ∧ 0 ≤ waiting_period default_config 40000 ≤ MAX_WAITING_PERIOD default_config.
Proof.
  assert (Hr : 0 ≤ 40000 ≤ RANDOM_RAND_MAX default_config) by (simpl; lia).
  split; [exact Hr|].
  apply (waiting_period_bounded default_config 40000); [reflexivity..|exact Hr].
Defined.

(** A HELLOACK that verifies but answers another challenge. *)
Lemma on_helloack_invalid_witness :
  @on_helloack default_config one_secret_scheme simple_collaborators
    (Some 0%nat) (a_frame HELLOACK_IDENTIFIER (replicate 19 0))
    (a_state NEIGHBOR_TENTATIVE)
  = Some (a_state NEIGHBOR_TENTATIVE).
Proof.
  apply (@on_helloack_invalid default_config one_secret_scheme simple_collaborators).
  intros (key & f' & _ & Hverify & Hchallenge).
  simpl in Hverify. injection Hverify as <-.
  vm_compute in Hchallenge. discriminate Hchallenge.
Defined.

Lemma helloack_short_addr_roundtrip_witness :
  ∃ f,
    send_helloack default_config 0 (a_state NEIGHBOR_TENTATIVE_AWAITING_ACK)
    = Some (emit (EvSend f) (a_state NEIGHBOR_TENTATIVE_AWAITING_ACK))
    ∧ command_frame_identifier f = HELLOACK_IDENTIFIER
    ∧ datalen f = (1 + 2 * CHALLENGE_LEN + 1 + NEIGHBOR_SHORT_ADDR_LEN)%nat
    ∧ read_bytes (payload f) (2 * CHALLENGE_LEN + 1) NEIGHBOR_SHORT_ADDR_LEN
      = uint16_bytes 1
    ∧ helloack_short_addr default_config (received f [9; 9; 9]) = uint16_bytes 1.
Proof.
  apply (helloack_short_addr_roundtrip default_config 0
           (a_neighbor NEIGHBOR_TENTATIVE_AWAITING_ACK)
           (a_state NEIGHBOR_TENTATIVE_AWAITING_ACK) [9; 9; 9]);
    reflexivity.
Defined.

(** Six rounds, with one event that did not come from the round timer, and
    an event after the end. *)
Lemma bootstrap_calls_back_once_witness :
  ∃ st1 st' tr,
    @bootstrap default_config simple_collaborators (Some 7%nat)
      (a_state NEIGHBOR_PERMANENT) = Some st1
    ∧ @run_events default_config simple_collaborators
        [true; false; true; true; true; true; true; true] st1 = Some st'
    ∧ trace st' = trace (a_state NEIGHBOR_PERMANENT) ++ tr
    ∧ is_bootstrapped st' = true
    ∧ count_events is_callback tr = 1%nat.
Proof.
  destruct (@bootstrap_calls_back_once default_config simple_collaborators 7%nat
              [true; false; true; true; true; true; true; true]
              (a_state NEIGHBOR_PERMANENT))
    as (st1 & st' & tr & Hboot & Hrun & Htr & _ & _ & Hlate);
    [simpl; lia | reflexivity |].
  exists st1, st', tr.
  destruct Hlate as (Hdone & Honce & _); [vm_compute; discriminate|].
  repeat (split; [assumption|]). assumption.
Defined.

Lemma on_ack_accepts_iff_witness :
  ∃ st',
    @on_ack simple_collaborators (Some 0%nat) (a_frame ACK_IDENTIFIER [0])
      (a_state NEIGHBOR_TENTATIVE_AWAITING_ACK) = Some st'
    ∧ trace st' = [EvNeighborUpdate 0 [0]].
Proof.
  destruct (@on_ack_accepts_iff simple_collaborators (Some 0%nat)
              (a_frame ACK_IDENTIFIER [0])
              (a_state NEIGHBOR_TENTATIVE_AWAITING_ACK)) as [Haccept _].
  - intros p [= <-]. exists (a_neighbor NEIGHBOR_TENTATIVE_AWAITING_ACK).
    reflexivity.
  - destruct (Haccept 0%nat (a_neighbor NEIGHBOR_TENTATIVE_AWAITING_ACK)
                (a_frame ACK_IDENTIFIER [0]))
      as (st' & Hack & Htrace & _); [reflexivity..|].
    exists st'. split; [exact Hack | exact Htrace].
Defined.

Lemma wait_callback_spec_witness :
  ∃ st',
    wait_callback default_config 0 (a_state NEIGHBOR_TENTATIVE) = Some st'
    ∧ memb_inuse (wait_timers_memb st') 0 = false
    ∧ neighbors st' !! 0%nat
      = Some (a_neighbor NEIGHBOR_TENTATIVE_AWAITING_ACK).
Proof.
  destruct (wait_callback_spec default_config 0
              {| ctimer := Some 300; wt_neighbor := Some 0%nat |} 0
              (a_neighbor NEIGHBOR_TENTATIVE) (a_state NEIGHBOR_TENTATIVE))
    as (st' & Hcall & _ & Hfree & Hpromote & _); [reflexivity..|].
  exists st'. split; [exact Hcall|]. split; [exact Hfree|].
  destruct Hpromote as [-> _]; reflexivity.
Defined.

(** A HELLOACK with frame counter 4 from a PERMANENT neighbor whose last
    unicast counter is 5. *)
Lemma on_helloack_replayed_witness :
  ∃ st' n',
    @on_helloack default_config one_secret_scheme simple_collaborators
      (Some 0%nat) (a_frame HELLOACK_IDENTIFIER (replicate 19 3))
      (a_state NEIGHBOR_PERMANENT) = Some st'
    ∧ neighbors st' !! 0%nat = Some n'
    ∧ metadata n' = replicate 16 7
    ∧ status n' = NEIGHBOR_PERMANENT
    ∧ trace st' = [].
Proof.
  destruct (@on_helloack_replayed default_config one_secret_scheme
              simple_collaborators 0%nat (a_neighbor NEIGHBOR_PERMANENT)
              (a_frame HELLOACK_IDENTIFIER (replicate 19 3))
              (a_state NEIGHBOR_PERMANENT))
    as (st' & n' & Hcall & Hn' & Hmeta & _ & _ & Hstatus & _ & Htrace).
  - reflexivity.
  - reflexivity.
  - intros key f' _ [= <-]. reflexivity.
  - exists st', n'. repeat (split; [assumption|]). assumption.
Defined.

(** *** Byte buffers, continued *)

(** Reading inside the range a [memcpy] wrote returns the source bytes. *)
Lemma memcpy_read_inside dst off src n o k :
  (off ≤ o)%nat → (o + k ≤ off + n)%nat → (off + n ≤ length dst)%nat →
  read_bytes (memcpy dst off src n) o k = read_bytes src (o - off) k.
Proof.
  intros Hlo Hhi Hfit. apply list_eq; intros j.
  destruct (decide (j < k)%nat) as [Hj|Hj].
  - rewrite !read_bytes_lookup by done. unfold memcpy.
    rewrite list_lookup_inserts by (rewrite ?length_read_bytes; lia).
    rewrite read_bytes_lookup by lia.
    by replace (0 + (o + j - off))%nat with (o - off + j)%nat by lia.
  - rewrite !lookup_ge_None_2; [done|..]; rewrite length_read_bytes; lia.
Qed.

(** Reading beside the range a [memcpy] wrote returns what was there. *)
Lemma memcpy_read_outside dst off src n o k :
  (o + k ≤ off ∨ off + n ≤ o)%nat →
  read_bytes (memcpy dst off src n) o k = read_bytes dst o k.
Proof.
  intros Hout. apply list_eq; intros j.
  destruct (decide (j < k)%nat) as [Hj|Hj].
  - rewrite !read_bytes_lookup by done. unfold memcpy.
    destruct Hout as [Hbefore|Hafter].
    + by rewrite list_lookup_inserts_lt by lia.
    + by rewrite list_lookup_inserts_ge by (rewrite length_read_bytes; lia).
  - rewrite !lookup_ge_None_2; [done|..]; rewrite length_read_bytes; lia.
Qed.

(** A [memcpy] over a whole array leaves just the source bytes. *)
Lemma memcpy_full dst src n :
  length dst = n → memcpy dst 0 src n = read_bytes src 0 n.
Proof.
  intros Hlen. apply list_eq; intros j. unfold memcpy.
  destruct (decide (j < n)%nat) as [Hj|Hj].
  - rewrite list_lookup_inserts by (rewrite ?length_read_bytes; lia).
    by replace (j - 0)%nat with j by lia.
  - rewrite !lookup_ge_None_2; [done|..];
      rewrite ?length_inserts, ?length_read_bytes; lia.
Qed.

Lemma read_bytes_received f stale o k :
  (o + k ≤ datalen f - 1)%nat → (datalen f - 1 ≤ length (payload f))%nat →
  read_bytes (payload (received f stale)) o k = read_bytes (payload f) o k.
Proof. intros Hin Hlen. unfold received. simpl. by apply read_bytes_take_app. Qed.

Lemma uint16_bytes_wrap16 z : uint16_bytes (wrap16 z) = uint16_bytes z.
Proof.
  unfold uint16_bytes, wrap16. by rewrite Z.mod_mod by lia.
Qed.

(** *** Wait-timer pool, continued *)

Lemma memb_alloc_None {A} (m : memb A) :
  Forall (λ cb, cb.1 ≠ 0%nat) m → memb_alloc m = None.
Proof.
  induction 1 as [|[count block] m Hused _ IH]; simpl in *; [done|].
  rewrite decide_False by done. by rewrite IH.
Qed.

(** The block [memb_alloc] returns was unused, and only its use count
    changes. *)
Lemma memb_alloc_Some {A} (m m' : memb A) ptr :
  memb_alloc m = Some (ptr, m') →
  ∃ block, m !! ptr = Some (0%nat, block) ∧ m' = <[ptr := (1%nat, block)]> m.
Proof.
  revert ptr m'. induction m as [|[count block] m IH]; intros ptr m'; simpl.
  - done.
  - case_decide as Hc.
    + intros [= <- <-]. subst count. by exists block.
    + destruct (memb_alloc m) as [[j m'']|] eqn:Halloc; simpl; [|done].
      intros [= <- <-]. destruct (IH j m'' eq_refl) as (b & Hb & ->).
      by exists b.
Qed.

Lemma memb_alloc_is_Some {A} (m : memb A) :
  Exists (λ cb, cb.1 = 0%nat) m → is_Some (memb_alloc m).
Proof.
  induction m as [|[count block] m IH]; intros Hfree; simpl.
  - by apply Exists_nil in Hfree.
  - case_decide as Hc; [by eexists|].
    apply Exists_cons in Hfree as [Hhere|Hlater]; [done|].
    destruct (IH Hlater) as [[j m''] ->]. by eexists.
Qed.

Lemma alter_insert_same {A} (g : A → A) (l : list A) k x :
  alter g k (<[k := x]> l) = <[k := g x]> l.
Proof.
  apply list_eq; intros j.
  destruct (decide (k < length l)%nat) as [Hk|Hk].
  - destruct (decide (k = j)) as [->|Hne].
    + rewrite list_lookup_alter_eq, !list_lookup_insert_eq
        by (rewrite ?length_insert; done).
      done.
    + by rewrite list_lookup_alter_ne, !list_lookup_insert_ne by done.
  - rewrite !list_insert_ge by lia. rewrite list_lookup_alter.
    case_decide; [subst j; by rewrite !lookup_ge_None_2 by lia | done].
Qed.

Section MoreHandlers.
Context (cfg : config) `{scheme : apkes_scheme} `{ext : collaborators}.

(** *** HELLO *)

(** X1: with every wait-timer in use, a HELLO from anybody is dropped and
    nothing changes; the neighbor table is not even asked for a new entry. *)
Theorem on_hello_pool_exhausted (sender : option nat) (f : frame) (st : state) :
  Forall (λ cb, cb.1 ≠ 0%nat) (wait_timers_memb st) →
  on_hello cfg sender f st = Some st.
Proof.
  intros Hfull. unfold on_hello. by rewrite (memb_alloc_None _ Hfull).
Qed.

(** X2: a HELLO from an unknown sender for whom the neighbor table has no
    room gives its wait-timer back: pool, timers and trace are as before, and
    the table is what [neighbor_new] left. *)
Theorem on_hello_table_full (f : frame) (st : state) :
  Exists (λ cb, cb.1 = 0%nat) (wait_timers_memb st) →
  (neighbor_new (neighbors st)).1 = None →
  on_hello cfg None f st
  = Some (set_neighbors (neighbor_new (neighbors st)).2 st).
Proof.
  intros Hfree Hfull. unfold on_hello.
  destruct (memb_alloc_is_Some _ Hfree) as [[slot m] Halloc].
  rewrite Halloc. simpl. rewrite Hfull.
  apply memb_alloc_free in Halloc. destruct st; simpl in *. by rewrite Halloc.
Qed.

(** What [on_hello] builds for an unknown sender when a wait-timer is free
    and the neighbor table has room. *)
Lemma on_hello_new (f : frame) (st : state) slot m p table n0 :
  memb_alloc (wait_timers_memb st) = Some (slot, m) →
  neighbor_new (neighbors st) = (Some p, table) →
  table !! p = Some n0 →
  ∃ st' n,
    on_hello cfg None f st = Some st'
    ∧ neighbors st' = <[p := n]> table
    ∧ status n = NEIGHBOR_TENTATIVE
    ∧ ids n = neighbor_update_ids f
                (read_bytes (payload f) CHALLENGE_LEN NEIGHBOR_SHORT_ADDR_LEN)
    ∧ metadata n
      = memcpy (memcpy (metadata n0) 0 (payload f) CHALLENGE_LEN) CHALLENGE_LEN
          (csprng_rand (csprng_calls st)) CHALLENGE_LEN
    ∧ local_index n = local_index n0
    ∧ expiration_time n
      = wrap32 (clock_seconds st
                + (MAX_WAITING_PERIOD cfg + ACK_DELAY cfg) / CLOCK_SECOND cfg)
    ∧ wait_timers_memb st'
      = <[slot := (1%nat,
                   {| ctimer := Some (waiting_period cfg
                                        (random_rand (random_calls st)));
                      wt_neighbor := Some p |})]> (wait_timers_memb st)
    ∧ (slot < length (wait_timers_memb st))%nat
    ∧ trace st' = trace st
    ∧ our_challenge st' = our_challenge st
    ∧ node_id st' = node_id st
    ∧ csprng_calls st' = S (csprng_calls st)
    ∧ random_calls st' = S (random_calls st).
Proof.
  intros Halloc Hnew Hn0. unfold on_hello. rewrite Halloc. simpl.
  rewrite Hnew. simpl. rewrite Hn0. simpl.
  destruct (memb_alloc_Some _ _ _ Halloc) as (block & Hblock & ->).
  eexists _, _. split; [done|]. simpl.
  do 6 (split; [done|]). split; [by rewrite alter_insert_same|].
  split; [by eapply lookup_lt_Some|]. done.
Qed.

(** X3: a HELLO from an unknown sender, with a free wait-timer and room in
    the table, creates a TENTATIVE neighbor whose 16 bytes of metadata are
    the peer's challenge followed by a fresh one of ours, which expires 10
    seconds from now; the wait-timer taken from the pool guards it and is set
    to the jittered period; nothing is sent yet. *)
Theorem on_hello_creates_tentative (f : frame) (st : state) slot m p table n0 :
  0 < CLOCK_SECOND cfg →
  memb_alloc (wait_timers_memb st) = Some (slot, m) →
  neighbor_new (neighbors st) = (Some p, table) →
  table !! p = Some n0 →
  length (metadata n0) = NEIGHBOR_PAIRWISE_KEY_LEN →
  ∃ st' n,
    on_hello cfg None f st = Some st'
    ∧ neighbors st' = <[p := n]> table
    ∧ status n = NEIGHBOR_TENTATIVE
    ∧ metadata n
      = read_bytes (payload f) 0 CHALLENGE_LEN
        ++ read_bytes (csprng_rand (csprng_calls st)) 0 CHALLENGE_LEN
    ∧ expiration_time n = wrap32 (clock_seconds st + 10)
    ∧ wait_timers_memb st' !! slot
      = Some (1%nat,
              {| ctimer := Some (waiting_period cfg (random_rand (random_calls st)));
                 wt_neighbor := Some p |})
    ∧ memb_inuse (wait_timers_memb st') slot = true
    ∧ trace st' = trace st.
Proof.
  intros Hclock Halloc Hnew Hn0 Hlen.
  destruct (on_hello_new f st slot m p table n0 Halloc Hnew Hn0)
    as (st' & n & Hcall & Htable & Hstatus & _ & Hmeta & _ & Hexp & Hpool
        & Hslot & Htrace & _).
  exists st', n. do 3 (split; [done|]).
  assert (Hentry : wait_timers_memb st' !! slot
                   = Some (1%nat,
                           {| ctimer := Some (waiting_period cfg
                                                (random_rand (random_calls st)));
                              wt_neighbor := Some p |})).
  { rewrite Hpool. by apply list_lookup_insert_eq. }
  split; [|split; [|split; [done|split; [|done]]]].
  - rewrite Hmeta. change CHALLENGE_LEN with 8%nat.
    change NEIGHBOR_PAIRWISE_KEY_LEN with 16%nat in Hlen.
    apply list_eq; intros j.
    assert (Hl1 : length (memcpy (metadata n0) 0 (payload f) 8) = 16%nat)
      by (by rewrite length_memcpy).
    destruct (decide (j < 8)%nat) as [Hj|Hj].
    + rewrite lookup_app_l by (rewrite length_read_bytes; done).
      unfold memcpy at 1. rewrite list_lookup_inserts_lt by done.
      unfold memcpy.
      rewrite list_lookup_inserts
        by (rewrite ?length_read_bytes, ?Hlen; simpl; lia).
      by replace (j - 0)%nat with j by lia.
    + rewrite lookup_app_r by (rewrite length_read_bytes; simpl; lia).
      rewrite length_read_bytes.
      destruct (decide (j < 16)%nat) as [Hj'|Hj'].
      * unfold memcpy at 1.
        rewrite list_lookup_inserts
          by (rewrite ?length_read_bytes, ?Hl1; simpl; lia).
        done.
      * rewrite !lookup_ge_None_2; [done|..];
          rewrite ?length_memcpy, ?length_read_bytes, ?Hlen; simpl; lia.
  - rewrite Hexp. do 2 f_equal.
    unfold MAX_WAITING_PERIOD, ROUND_DURATION, ACK_DELAY.
    replace (7 * CLOCK_SECOND cfg - 2 * CLOCK_SECOND cfg + 5 * CLOCK_SECOND cfg)
      with (10 * CLOCK_SECOND cfg) by lia.
    apply Z.div_mul. lia.
  - unfold memb_inuse. by rewrite Hentry.
Qed.

(** *** Frames on the air *)

Lemma read_bytes_received_lt f stale o k :
  (o + k ≤ datalen f - 1)%nat → (o + k ≤ length (payload f))%nat →
  read_bytes (payload (received f stale)) o k = read_bytes (payload f) o k.
Proof.
  intros Hin Hlen. unfold received. simpl. apply list_eq; intros j.
  destruct (decide (j < k)%nat) as [Hj|Hj].
  - rewrite !read_bytes_lookup by done.
    rewrite lookup_app_l by (rewrite length_take; lia).
    by rewrite lookup_take_lt by lia.
  - rewrite !lookup_ge_None_2; [done|..]; rewrite length_read_bytes; lia.
Qed.

(** The HELLO that [broadcast_hello] builds. *)
Lemma broadcast_hello_frame (st : state) :
  ∃ f, trace (broadcast_hello st) = trace st ++ [EvSend f]
    ∧ command_frame_identifier f = HELLO_IDENTIFIER
    ∧ addr_receiver f = linkaddr_null
    ∧ datalen f = 11%nat
    ∧ length (payload f) = 127%nat
    ∧ read_bytes (payload f) 0 8
      = read_bytes (our_challenge (broadcast_hello st)) 0 8
    ∧ read_bytes (payload f) 8 2 = uint16_bytes (node_id st)
    ∧ our_challenge (broadcast_hello st)
      = memcpy (our_challenge st) 0 (csprng_rand (csprng_calls st)) 8
    ∧ csprng_calls (broadcast_hello st) = S (csprng_calls st).
Proof.
  unfold broadcast_hello. cbn -[memcpy read_bytes uint16_bytes].
  eexists. split; [done|]. cbn -[memcpy read_bytes uint16_bytes].
  do 3 (split; [done|]). split; [by rewrite !length_memcpy|].
  split; [|split; [|done]].
  - change CHALLENGE_LEN with 8%nat.
    rewrite memcpy_read_outside by lia.
    rewrite memcpy_read_inside by (simpl; lia). done.
  - change CHALLENGE_LEN with 8%nat. change NEIGHBOR_SHORT_ADDR_LEN with 2%nat.
    rewrite memcpy_read_inside by (rewrite ?length_memcpy; simpl; lia).
    replace (8 - 8)%nat with 0%nat by lia.
    apply (read_bytes_all (uint16_bytes (node_id st))).
Qed.

(** The HELLOACK that [send_helloack] builds, up to its trailer. *)
Lemma send_helloack_frame (p : nat) (n : neighbor) (st : state) :
  neighbors st !! p = Some n →
  ∃ f, send_helloack cfg p st = Some (emit (EvSend f) st)
    ∧ command_frame_identifier f = HELLOACK_IDENTIFIER
    ∧ addr_receiver f = extended_addr (ids n)
    ∧ length (payload f) = 127%nat
    ∧ datalen f = (18 + if EBEAP_WITH_ENCRYPTION cfg
                        then NEIGHBOR_BROADCAST_KEY_LEN cfg else 2)%nat
    ∧ read_bytes (payload f) 0 16 = read_bytes (metadata n) 0 16
    ∧ payload f !! 16%nat = Some (local_index n)
    ∧ (EBEAP_WITH_ENCRYPTION cfg = true →
       key_id_mode f = FRAME802154_5_BYTE_KEY_ID_MODE
       ∧ key_index f = HELLOACK_IDENTIFIER
       ∧ key_source_bytes_0_1 f = wrap16 (node_id st)).
Proof.
  intros Hn. unfold send_helloack. rewrite Hn.
  cbn -[memcpy read_bytes uint16_bytes].
  eexists. split; [done|].
  change CHALLENGE_LEN with 8%nat. change NEIGHBOR_SHORT_ADDR_LEN with 2%nat.
  destruct (EBEAP_WITH_ENCRYPTION cfg); cbn -[memcpy read_bytes uint16_bytes].
  - do 2 (split; [done|]). split; [by rewrite !length_memcpy|].
    split; [done|]. split; [|split; [|done]].
    + rewrite !memcpy_read_outside by lia.
      by rewrite memcpy_read_inside by (simpl; lia).
    + unfold memcpy at 1. rewrite list_lookup_inserts_lt by lia.
      unfold memcpy at 1.
      by rewrite list_lookup_inserts by (rewrite ?length_memcpy; simpl; lia).
  - do 2 (split; [done|]). split; [by rewrite !length_memcpy|].
    split; [done|]. split; [|split; [|done]].
    + rewrite !memcpy_read_outside by lia.
      by rewrite memcpy_read_inside by (simpl; lia).
    + unfold memcpy at 1. rewrite list_lookup_inserts_lt by lia.
      unfold memcpy at 1.
      by rewrite list_lookup_inserts by (rewrite ?length_memcpy; simpl; lia).
Qed.

(** X4: encoding a HELLO and decoding it: the frame [broadcast_hello] sends
    goes to the broadcast address with 11 bytes of data, and what a receiver
    reads where [on_hello] looks is the challenge just drawn from the CSPRNG,
    now in [our_challenge], and the sender's [node_id]. *)
Theorem hello_roundtrip (st : state) (stale : list Z) :
  length (our_challenge st) = CHALLENGE_LEN →
  ∃ f, trace (broadcast_hello st) = trace st ++ [EvSend f]
    ∧ command_frame_identifier f = HELLO_IDENTIFIER
    ∧ addr_receiver f = linkaddr_null
    ∧ datalen f = (1 + CHALLENGE_LEN + NEIGHBOR_SHORT_ADDR_LEN)%nat
    ∧ our_challenge (broadcast_hello st)
      = read_bytes (csprng_rand (csprng_calls st)) 0 CHALLENGE_LEN
    ∧ read_bytes (payload (received f stale)) 0 CHALLENGE_LEN
      = our_challenge (broadcast_hello st)
    ∧ read_bytes (payload (received f stale)) CHALLENGE_LEN NEIGHBOR_SHORT_ADDR_LEN
      = uint16_bytes (node_id st).
Proof.
  intros Hlen.
  destruct (broadcast_hello_frame st)
    as (f & Htrace & Hid & Hdest & Hdata & Hbuf & Hchallenge & Hshort & Hours & _).
  change CHALLENGE_LEN with 8%nat in *. change NEIGHBOR_SHORT_ADDR_LEN with 2%nat.
  assert (Hfresh : our_challenge (broadcast_hello st)
                   = read_bytes (csprng_rand (csprng_calls st)) 0 8).
  { rewrite Hours. by apply memcpy_full. }
  exists f. do 3 (split; [done|]). split; [done|]. split; [done|].
  rewrite !read_bytes_received_lt by (rewrite ?Hdata, ?Hbuf; lia).
  split; [|done]. rewrite Hchallenge, Hfresh.
  apply (read_bytes_all (read_bytes (csprng_rand (csprng_calls st)) 0 8)).
Qed.

(** X5: the HELLOACK of [send_helloack] starts with the 16 bytes of the
    receiver's metadata (the two challenges); the byte behind them, which is
    the first byte of the data [on_helloack] hands to [neighbor_update], is
    the local index of the receiver's entry. *)
Theorem helloack_layout (p : nat) (n : neighbor) (st : state) (stale : list Z) :
  neighbors st !! p = Some n →
  ∃ f, send_helloack cfg p st = Some (emit (EvSend f) st)
    ∧ command_frame_identifier f = HELLOACK_IDENTIFIER
    ∧ addr_receiver f = extended_addr (ids n)
    ∧ read_bytes (payload (received f stale)) 0 (2 * CHALLENGE_LEN)
      = read_bytes (metadata n) 0 (2 * CHALLENGE_LEN)
    ∧ drop (2 * CHALLENGE_LEN) (payload (received f stale)) !! 0%nat
      = Some (local_index n).
Proof.
  intros Hn.
  destruct (send_helloack_frame p n st Hn)
    as (f & Hsend & Hid & Hdest & Hbuf & Hdata & Hmeta & Hindex & _).
  exists f. do 3 (split; [done|]).
  change (2 * CHALLENGE_LEN)%nat with 16%nat.
  split.
  - rewrite read_bytes_received_lt; [done|..]; rewrite ?Hdata, ?Hbuf; lia.
  - rewrite lookup_drop. unfold received. simpl.
    rewrite lookup_app_l by (rewrite length_take, Hdata, Hbuf; lia).
    rewrite lookup_take_lt by (rewrite Hdata; lia). done.
Qed.

(** X6: with EBEAP encryption the short address [on_helloack] recovers from
    the key-source attribute of a received HELLOACK is the sender's
    [node_id], and the frame names the HELLOACK identifier as key index in
    the 5-byte key-id mode. *)
Theorem helloack_key_source_roundtrip (p : nat) (n : neighbor) (st : state)
    (stale : list Z) :
  EBEAP_WITH_ENCRYPTION cfg = true →
  neighbors st !! p = Some n →
  ∃ f, send_helloack cfg p st = Some (emit (EvSend f) st)
    ∧ key_id_mode f = FRAME802154_5_BYTE_KEY_ID_MODE
    ∧ key_index f = HELLOACK_IDENTIFIER
    ∧ helloack_short_addr cfg (received f stale) = uint16_bytes (node_id st).
Proof.
  intros Henc Hn.
  destruct (send_helloack_frame p n st Hn) as (f & Hsend & _ & _ & _ & _ & _ & _ & Hkey).
  destruct (Hkey Henc) as (Hmode & Hindex & Hsource).
  exists f. do 3 (split; [done|]).
  unfold helloack_short_addr. rewrite Henc. unfold received. simpl.
  rewrite Hsource. apply uint16_bytes_wrap16.
Qed.

(** The ACK that [send_ack] builds. *)
Lemma send_ack_frame (p : nat) (n : neighbor) (st : state) :
  neighbors st !! p = Some n →
  ∃ f, send_ack cfg p st = Some (emit (EvSend f) st)
    ∧ command_frame_identifier f = ACK_IDENTIFIER
    ∧ addr_receiver f = extended_addr (ids n)
    ∧ datalen f = (2 + NEIGHBOR_BROADCAST_KEY_LEN cfg)%nat
    ∧ payload f !! 0%nat = Some (local_index n).
Proof.
  intros Hn. unfold send_ack. rewrite Hn.
  cbn -[memcpy read_bytes].
  eexists. split; [done|].
  destruct (EBEAP_WITH_ENCRYPTION cfg); cbn -[memcpy read_bytes].
  - do 3 (split; [done|]).
    unfold memcpy at 1. rewrite list_lookup_inserts_lt by lia.
    unfold memcpy. by rewrite list_lookup_inserts by (simpl; lia).
  - do 3 (split; [done|]).
    unfold memcpy. by rewrite list_lookup_inserts by (simpl; lia).
Qed.

(** *** HELLOACK *)

(** A valid HELLOACK from an unknown sender, with room in the table: the
    state [on_helloack] returns. *)
Lemma on_helloack_checked (f f' : frame) (key : list Z) (st : state)
    p table n0 :
  get_secret_with_helloack_sender
    (neighbor_update_ids f (helloack_short_addr cfg f)) = Some key →
  coresec_decrypt_verify_unicast key f = Some f' →
  read_bytes (our_challenge st) 0 CHALLENGE_LEN
  = read_bytes (payload f') 0 CHALLENGE_LEN →
  neighbor_new (neighbors st) = (Some p, table) →
  table !! p = Some n0 →
  ∃ st',
    on_helloack cfg None f st = Some st'
    ∧ neighbors st'
      = <[p := neighbor_update
                 (set_ids (neighbor_update_ids f (helloack_short_addr cfg f))
                    (generate_pairwise_key
                       (set_metadata
                          (memcpy (metadata n0) 0 (payload f') 16) n0)
                       key))
                 f' (drop 16 (payload f'))]> table.
Proof.
  intros Hkey Hverify Hchallenge Hnew Hn0. unfold on_helloack.
  rewrite Hkey, Hverify. unfold memcmp_ne.
  rewrite bool_decide_true by done. cbn -[memcpy read_bytes].
  rewrite Hnew. cbn -[memcpy read_bytes]. rewrite Hn0. cbn -[memcpy read_bytes].
  set (n := neighbor_update _ f' _).
  set (st1 := emit _ _).
  destruct (send_ack_frame p n st1) as (ack & -> & _).
  { subst st1. simpl. apply lookup_insert_eq. }
  eexists. split; [done|]. by subst st1.
Qed.

(** X7: a valid HELLOACK from an unknown sender, with room in the table,
    fills the new entry (metadata from the payload, then encrypted under the
    secret; the recovered ids), has [neighbor_update] make it PERMANENT, and
    then sends exactly one frame: an ACK to the entry's extended address
    that starts with the entry's local index. *)
Theorem on_helloack_new_neighbor (f f' : frame) (key : list Z) (st : state)
    p table n0 :
  get_secret_with_helloack_sender
    (neighbor_update_ids f (helloack_short_addr cfg f)) = Some key →
  coresec_decrypt_verify_unicast key f = Some f' →
  read_bytes (our_challenge st) 0 CHALLENGE_LEN
  = read_bytes (payload f') 0 CHALLENGE_LEN →
  neighbor_new (neighbors st) = (Some p, table) →
  table !! p = Some n0 →
  ∃ st' n ack,
    on_helloack cfg None f st = Some st'
    ∧ neighbors st' = <[p := n]> table
    ∧ n = neighbor_update
            (set_ids (neighbor_update_ids f (helloack_short_addr cfg f))
               (generate_pairwise_key
                  (set_metadata
                     (memcpy (metadata n0) 0 (payload f') (2 * CHALLENGE_LEN)) n0)
                  key))
            f' (drop (2 * CHALLENGE_LEN) (payload f'))
    ∧ status n = NEIGHBOR_PERMANENT
    ∧ trace st'
      = trace st ++ [EvNeighborUpdate p (drop (2 * CHALLENGE_LEN) (payload f'));
                     EvSend ack]
    ∧ command_frame_identifier ack = ACK_IDENTIFIER
    ∧ addr_receiver ack = extended_addr (ids n)
    ∧ datalen ack = (2 + NEIGHBOR_BROADCAST_KEY_LEN cfg)%nat
    ∧ payload ack !! 0%nat = Some (local_index n).
Proof.
  intros Hkey Hverify Hchallenge Hnew Hn0. unfold on_helloack.
  rewrite Hkey, Hverify. unfold memcmp_ne.
  rewrite bool_decide_true by done. cbn -[memcpy read_bytes].
  rewrite Hnew. cbn -[memcpy read_bytes]. rewrite Hn0. cbn -[memcpy read_bytes].
  set (n := neighbor_update _ f' _).
  set (st1 := emit _ _).
  destruct (send_ack_frame p n st1) as (ack & -> & Hid & Hdest & Hdata & Hindex).
  { subst st1. simpl. apply lookup_insert_eq. }
  exists (emit (EvSend ack) st1), n, ack. split; [done|].
  subst st1. simpl. split; [done|]. split; [done|]. split; [done|].
  split; [by rewrite <- app_assoc|]. done.
Qed.

(** X8: a valid HELLOACK from an unknown sender for which the neighbor table
    has no room is not answered: nothing is sent, and only the table is as
    [neighbor_new] left it. *)
Theorem on_helloack_table_full (f f' : frame) (key : list Z) (st : state) :
  get_secret_with_helloack_sender
    (neighbor_update_ids f (helloack_short_addr cfg f)) = Some key →
  coresec_decrypt_verify_unicast key f = Some f' →
  read_bytes (our_challenge st) 0 CHALLENGE_LEN
  = read_bytes (payload f') 0 CHALLENGE_LEN →
  (neighbor_new (neighbors st)).1 = None →
  on_helloack cfg None f st
  = Some (set_neighbors (neighbor_new (neighbors st)).2 st).
Proof.
  intros Hkey Hverify Hchallenge Hfull. unfold on_helloack.
  rewrite Hkey, Hverify. unfold memcmp_ne.
  rewrite bool_decide_true by done. cbn -[memcpy read_bytes].
  by rewrite Hfull.
Qed.

(** X9: a HELLOACK from a neighbor that is TENTATIVE_AWAITING_ACK (we have
    sent it a HELLOACK ourselves) is dropped, however valid: nothing
    changes. *)
Theorem on_helloack_awaiting_ack (p : nat) (n : neighbor) (f : frame) (st : state) :
  neighbors st !! p = Some n →
  status n = NEIGHBOR_TENTATIVE_AWAITING_ACK →
  on_helloack cfg (Some p) f st = Some st.
Proof.
  intros Hn Hstatus. unfold on_helloack.
  destruct (get_secret_with_helloack_sender _) as [key|]; [|done].
  destruct (coresec_decrypt_verify_unicast key f) as [f'|]; [|done].
  destruct (memcmp_ne _ _ _); [done|].
  rewrite Hn. simpl. by rewrite Hstatus.
Qed.

(** X10: crossing handshakes.  When a valid HELLOACK arrives from a neighbor
    that is still TENTATIVE (its HELLO reached us and its wait-timer is
    running), the neighbor becomes PERMANENT and gets an ACK; when the
    wait-timer then expires it sends no HELLOACK and changes no entry, it
    only returns to the pool. *)
Theorem helloack_before_wait_timer (p : nat) (n : neighbor) (f f' : frame)
    (key : list Z) ptr wt (st : state) :
  neighbors st !! p = Some n →
  status n = NEIGHBOR_TENTATIVE →
  wait_timers_memb st !! ptr = Some (1%nat, wt) →
  wt_neighbor wt = Some p →
  get_secret_with_helloack_sender
    (neighbor_update_ids f (helloack_short_addr cfg f)) = Some key →
  coresec_decrypt_verify_unicast key f = Some f' →
  read_bytes (our_challenge st) 0 CHALLENGE_LEN
  = read_bytes (payload f') 0 CHALLENGE_LEN →
  ∃ st1 st2 ack,
    on_helloack cfg (Some p) f st = Some st1
    ∧ status <$> neighbors st1 !! p = Some NEIGHBOR_PERMANENT
    ∧ trace st1
      = trace st ++ [EvNeighborUpdate p (drop (2 * CHALLENGE_LEN) (payload f'));
                     EvSend ack]
    ∧ command_frame_identifier ack = ACK_IDENTIFIER
    ∧ wait_callback cfg ptr st1 = Some st2
    ∧ trace st2 = trace st1
    ∧ neighbors st2 = neighbors st1
    ∧ memb_inuse (wait_timers_memb st2) ptr = false.
Proof.
  intros Hn Hstatus Hslot Hguard Hkey Hverify Hchallenge. unfold on_helloack.
  rewrite Hkey, Hverify. unfold memcmp_ne.
  rewrite bool_decide_true by done. cbn -[memcpy read_bytes].
  rewrite Hn. cbn -[memcpy read_bytes]. rewrite Hstatus.
  cbn -[memcpy read_bytes].
  set (n1 := neighbor_update _ f' _).
  set (st0 := emit _ _).
  destruct (send_ack_frame p n1 st0) as (ack & -> & Hid & _).
  { subst st0. simpl. apply lookup_insert_eq. }
  assert (Hn1 : neighbors (emit (EvSend ack) st0) !! p = Some n1).
  { subst st0. simpl. apply lookup_insert_eq. }
  eexists _, _, ack. split; [done|].
  split; [by rewrite Hn1|].
  split; [subst st0; simpl; by rewrite <- app_assoc|]. split; [done|].
  unfold wait_callback.
  replace (wait_timers_memb (emit (EvSend ack) st0)) with (wait_timers_memb st)
    by (subst st0; done).
  rewrite Hslot. simpl. rewrite Hguard. simpl.
  rewrite lookup_insert_eq. simpl.
  split; [done|]. simpl. split; [done|]. split; [done|].
  replace (wait_timers_memb st0) with (wait_timers_memb st) by (subst st0; done).
  eapply memb_free_not_inuse; [done|lia].
Qed.

(** *** ACK *)

(** X11: an ACK is accepted once: after [on_ack] has accepted an ACK from a
    neighbor, any further ACK from that neighbor changes nothing. *)
Theorem on_ack_once (p : nat) (n : neighbor) (f f' f2 : frame) (st : state) :
  neighbors st !! p = Some n →
  status n = NEIGHBOR_TENTATIVE_AWAITING_ACK →
  coresec_decrypt_verify_unicast (pairwise_key n) f = Some f' →
  ∃ st', on_ack (Some p) f st = Some st'
    ∧ status <$> neighbors st' !! p = Some NEIGHBOR_PERMANENT
    ∧ on_ack (Some p) f2 st' = Some st'.
Proof.
  intros Hn Hstatus Hverify.
  assert (Hfirst : on_ack (Some p) f st
                   = Some (emit (EvNeighborUpdate p (payload f'))
                             (set_neighbors
                                (<[p := neighbor_update n f' (payload f')]>
                                   (neighbors st)) st))).
  { unfold on_ack. rewrite Hn. simpl.
    destruct (decide (status n ≠ NEIGHBOR_TENTATIVE_AWAITING_ACK)) as [Hne|_];
      [done|].
    by rewrite Hverify. }
  eexists. split; [exact Hfirst|].
  unfold on_ack. simpl. rewrite lookup_insert_eq. simpl.
  split; [done|].
  by destruct (decide (NEIGHBOR_PERMANENT ≠ NEIGHBOR_TENTATIVE_AWAITING_ACK)).
Qed.

(** *** The handshake end to end *)

Lemma read_bytes_all' (buf : list Z) n :
  length buf = n → read_bytes buf 0 n = buf.
Proof. intros <-. apply read_bytes_all. Qed.

Lemma read_bytes_prefix (a b : list Z) o n k :
  (k ≤ n)%nat → read_bytes a o n = read_bytes b o n →
  read_bytes a o k = read_bytes b o k.
Proof.
  intros Hk Heq. apply list_eq; intros j.
  destruct (decide (j < k)%nat) as [Hj|Hj].
  - assert (Hlookup : read_bytes a o n !! j = read_bytes b o n !! j)
      by (by rewrite Heq).
    rewrite !read_bytes_lookup in Hlookup by lia.
    by rewrite !read_bytes_lookup by done.
  - rewrite !lookup_ge_None_2; [done|..]; rewrite length_read_bytes; lia.
Qed.

(** X12: the HELLOACK answers the HELLO.  Node A broadcasts a HELLO; node B,
    to which A is unknown, accepts it and, when the wait-timer expires,
    sends a HELLOACK, promotes A to TENTATIVE_AWAITING_ACK and frees the
    wait-timer; that HELLOACK passes the challenge comparison of
    [on_helloack] against A's [our_challenge]. *)
Theorem helloack_answers_hello (stA stB : state) (stale stale' : list Z)
    slot m p table n0 :
  memb_alloc (wait_timers_memb stB) = Some (slot, m) →
  neighbor_new (neighbors stB) = (Some p, table) →
  table !! p = Some n0 →
  length (metadata n0) = NEIGHBOR_PAIRWISE_KEY_LEN →
  ∃ hello stB1 stB2 helloack,
    trace (broadcast_hello stA) = trace stA ++ [EvSend hello]
    ∧ on_hello cfg None (received hello stale) stB = Some stB1
    ∧ wait_callback cfg slot stB1 = Some stB2
    ∧ trace stB2 = trace stB ++ [EvSend helloack]
    ∧ command_frame_identifier helloack = HELLOACK_IDENTIFIER
    ∧ memcmp_ne (our_challenge (broadcast_hello stA))
        (payload (received helloack stale')) CHALLENGE_LEN = false
    ∧ status <$> neighbors stB2 !! p = Some NEIGHBOR_TENTATIVE_AWAITING_ACK
    ∧ memb_inuse (wait_timers_memb stB2) slot = false.
Proof.
  intros Halloc Hnew Hn0 Hlen.
  change NEIGHBOR_PAIRWISE_KEY_LEN with 16%nat in Hlen.
  destruct (broadcast_hello_frame stA)
    as (hello & Hsent & _ & _ & Hdata & Hbuf & Hchallenge & _).
  destruct (on_hello_new (received hello stale) stB slot m p table n0
              Halloc Hnew Hn0)
    as (stB1 & n & Hcall & Htable & Hstatus & _ & Hmeta & _ & _ & Hpool
        & Hslot & Htrace & _).
  change CHALLENGE_LEN with 8%nat in *.
  assert (Hpeer : read_bytes (metadata n) 0 8
                  = read_bytes (our_challenge (broadcast_hello stA)) 0 8).
  { rewrite Hmeta, memcpy_read_outside by lia.
    rewrite memcpy_read_inside by lia.
    rewrite read_bytes_received_lt by (rewrite ?Hdata, ?Hbuf; lia). done. }
  set (n' := set_status NEIGHBOR_TENTATIVE_AWAITING_ACK n).
  set (stB1' := set_neighbors (<[p := n']> (neighbors stB1)) stB1).
  destruct (send_helloack_frame p n' stB1')
    as (helloack & Hsend & Hid & _ & Hbuf' & Hdata' & Hlayout & _).
  { subst stB1'. simpl. apply lookup_insert_eq. }
  exists hello, stB1,
    (set_wait_timers_memb
       (memb_free (wait_timers_memb (emit (EvSend helloack) stB1')) slot)
       (emit (EvSend helloack) stB1')),
    helloack.
  split; [done|]. split; [done|]. split.
  { unfold wait_callback. rewrite Hpool, list_lookup_insert_eq by done. simpl.
    rewrite Htable, lookup_insert_eq. simpl.
    rewrite decide_True by done. fold n'. rewrite <- Htable. fold stB1'.
    by rewrite Hsend. }
  split; [simpl; by rewrite Htrace|]. split; [done|]. split.
  { unfold memcmp_ne. rewrite bool_decide_true; [done|].
    rewrite read_bytes_received_lt
      by (rewrite ?Hdata', ?Hbuf'; destruct (EBEAP_WITH_ENCRYPTION cfg); lia).
    rewrite (read_bytes_prefix _ _ 0 16 8 ltac:(lia) Hlayout).
    by rewrite <- Hpeer. }
  split.
  { simpl. by rewrite lookup_insert_eq. }
  simpl. rewrite Hpool.
  eapply memb_free_not_inuse; [by apply list_lookup_insert_eq|lia].
Qed.

(** X13: key agreement.  B holds A as TENTATIVE_AWAITING_ACK and sends it a
    HELLOACK; when A, to which B is unknown, accepts that HELLOACK with the
    same long-term secret, the 16 bytes A's [generate_pairwise_key] leaves
    in the metadata of B's entry are those B's [get_pairwise_key_with]
    leaves in the metadata of A's entry: the AES encryption of the two
    challenges under the secret.  The neighbor table must keep the metadata
    in [neighbor_update], and link-layer verification must leave the payload
    as it was. *)
Theorem pairwise_key_agreement (stA stB : state) (helloack : frame)
    (stale key : list Z) q nB p table n0 :
  neighbors stB !! q = Some nB →
  status nB = NEIGHBOR_TENTATIVE_AWAITING_ACK →
  length (metadata nB) = NEIGHBOR_PAIRWISE_KEY_LEN →
  get_secret_with_hello_sender (ids nB) = Some key →
  send_helloack cfg q stB = Some (emit (EvSend helloack) stB) →
  get_secret_with_helloack_sender
    (neighbor_update_ids (received helloack stale)
       (helloack_short_addr cfg (received helloack stale))) = Some key →
  coresec_decrypt_verify_unicast key (received helloack stale)
  = Some (received helloack stale) →
  read_bytes (our_challenge stA) 0 CHALLENGE_LEN
  = read_bytes (metadata nB) 0 CHALLENGE_LEN →
  neighbor_new (neighbors stA) = (Some p, table) →
  table !! p = Some n0 →
  length (metadata n0) = NEIGHBOR_PAIRWISE_KEY_LEN →
  (∀ n f d, metadata (neighbor_store_trailer n f d) = metadata n) →
  ∃ stA' nA stB' nB',
    on_helloack cfg None (received helloack stale) stA = Some stA'
    ∧ neighbors stA' !! p = Some nA
    ∧ get_pairwise_key_with q stB = Some (Some key, stB')
    ∧ neighbors stB' !! q = Some nB'
    ∧ metadata nA = metadata nB'
    ∧ metadata nA
      = read_bytes (aes_128_padded_encrypt key (metadata nB)) 0
          NEIGHBOR_PAIRWISE_KEY_LEN.
Proof.
  intros HnB Hstatus HlenB HkeyB Hsend HkeyA Hverify Hchallenge Hnew Hn0 HlenA
    Hkeep.
  change NEIGHBOR_PAIRWISE_KEY_LEN with 16%nat in *.
  change CHALLENGE_LEN with 8%nat in *.
  destruct (send_helloack_frame q nB stB HnB)
    as (f & Hsend' & _ & _ & Hbuf & Hdata & Hlayout & _).
  rewrite Hsend in Hsend'.
  assert (helloack = f) as <-.
  { assert (Hf : trace (emit (EvSend helloack) stB) = trace (emit (EvSend f) stB))
      by congruence.
    simpl in Hf. apply app_inv_head in Hf. congruence. }
  clear Hsend'.
  assert (Hrx : read_bytes (payload (received helloack stale)) 0 16 = metadata nB).
  { rewrite read_bytes_received_lt
      by (rewrite ?Hdata, ?Hbuf; destruct (EBEAP_WITH_ENCRYPTION cfg); lia).
    rewrite Hlayout, <- HlenB. apply read_bytes_all. }
  assert (Hsame : read_bytes (our_challenge stA) 0 8
                  = read_bytes (payload (received helloack stale)) 0 8).
  { rewrite Hchallenge. symmetry.
    apply (read_bytes_prefix _ _ 0 16 8); [lia|].
    rewrite Hrx, <- HlenB. symmetry. apply read_bytes_all. }
  destruct (on_helloack_checked (received helloack stale)
              (received helloack stale) key stA p table n0
              HkeyA Hverify Hsame Hnew Hn0)
    as (stA' & HcallA & HtableA).
  eexists stA', _, _, _. split; [exact HcallA|].
  split; [rewrite HtableA; apply lookup_insert_eq|].
  split.
  { unfold get_pairwise_key_with. rewrite HnB. simpl.
    rewrite decide_True by done. by rewrite HkeyB. }
  split; [simpl; apply lookup_insert_eq|].
  assert (HmetaA : metadata
            (neighbor_update
               (set_ids
                  (neighbor_update_ids (received helloack stale)
                     (helloack_short_addr cfg (received helloack stale)))
                  (generate_pairwise_key
                     (set_metadata
                        (memcpy (metadata n0) 0
                           (payload (received helloack stale)) 16) n0)
                     key))
               (received helloack stale)
               (drop 16 (payload (received helloack stale))))
          = read_bytes (aes_128_padded_encrypt key (metadata nB)) 0 16).
  { unfold neighbor_update. cbn -[memcpy read_bytes received]. rewrite Hkeep.
    cbn -[memcpy read_bytes received].
    rewrite (memcpy_full (metadata n0)) by done.
    change NEIGHBOR_PAIRWISE_KEY_LEN with 16%nat.
    rewrite memcpy_full by apply length_read_bytes.
    rewrite (read_bytes_all' (read_bytes _ 0 16)) by apply length_read_bytes.
    by rewrite Hrx. }
  split; [|exact HmetaA].
  rewrite HmetaA. cbn -[memcpy read_bytes].
  change NEIGHBOR_PAIRWISE_KEY_LEN with 16%nat.
  rewrite memcpy_full by done.
  by rewrite (read_bytes_all' (metadata nB)) by done.
Qed.

(** *** What inbound frames and wait-timers leave alone *)

Lemma send_helloack_emits p st st' :
  send_helloack cfg p st = Some st' → ∃ f, st' = emit (EvSend f) st.
Proof.
  unfold send_helloack. destruct (neighbors st !! p) as [n|]; simpl; [|done].
  intros [= <-]. by eexists.
Qed.

Lemma send_ack_emits p st st' :
  send_ack cfg p st = Some st' → ∃ f, st' = emit (EvSend f) st.
Proof.
  unfold send_ack. destruct (neighbors st !! p) as [n|]; simpl; [|done].
  intros [= <-]. by eexists.
Qed.

Lemma on_hello_untouched sender f st st' :
  on_hello cfg sender f st = Some st' →
  driver_untouched st st' ∧ trace st' = trace st.
Proof.
  unfold on_hello, driver_untouched.
  destruct (memb_alloc (wait_timers_memb st)) as [[slot m]|] eqn:Halloc;
    [|by intros [= <-]].
  destruct (memb_alloc_Some _ _ _ Halloc) as (block & _ & ->).
  destruct sender as [p|]; simpl.
  - intros [= <-]. simpl. unfold memb_free.
    by rewrite length_alter, length_insert.
  - destruct (neighbor_new (neighbors st)) as [[p|] table]; simpl.
    + destruct (table !! p) as [n|]; simpl; [|done].
      intros [= <-]. simpl. by rewrite length_alter, length_insert.
    + intros [= <-]. simpl. unfold memb_free.
      by rewrite length_alter, length_insert.
Qed.

Lemma wait_callback_untouched ptr st st' :
  wait_callback cfg ptr st = Some st' → driver_untouched st st'.
Proof.
  unfold wait_callback, driver_untouched.
  destruct (wait_timers_memb st !! ptr) as [[count wt]|]; simpl; [|done].
  destruct (wt_neighbor wt) as [p|]; simpl; [|done].
  destruct (neighbors st !! p) as [n|]; simpl; [|done].
  case_decide.
  - destruct (send_helloack cfg p _) as [st1|] eqn:Hsend; simpl; [|done].
    apply send_helloack_emits in Hsend as [f ->].
    intros [= <-]. simpl. unfold memb_free. by rewrite length_alter.
  - simpl. intros [= <-]. simpl. unfold memb_free. by rewrite length_alter.
Qed.

Lemma on_helloack_untouched sender f st st' :
  on_helloack cfg sender f st = Some st' → driver_untouched st st'.
Proof.
  unfold on_helloack, driver_untouched.
  destruct (get_secret_with_helloack_sender _) as [key|]; [|by intros [= <-]].
  destruct (coresec_decrypt_verify_unicast key f) as [f'|]; [|by intros [= <-]].
  destruct (memcmp_ne _ _ _); [by intros [= <-]|].
  destruct sender as [p|]; simpl.
  - destruct (neighbors st !! p) as [n|] eqn:Hn; simpl; [|done].
    destruct (status n).
    + destruct (anti_replay_was_replayed (anti_replay n) f') as [[] info]; simpl.
      * by intros [= <-].
      * rewrite lookup_insert_eq. simpl. intros Hsend.
        by apply send_ack_emits in Hsend as [ack ->].
    + intros Hsend. by apply send_ack_emits in Hsend as [ack ->].
    + by intros [= <-].
  - destruct (neighbor_new (neighbors st)) as [[p|] table]; simpl.
    + destruct (table !! p) as [n|]; simpl; [|done]. intros Hsend.
      by apply send_ack_emits in Hsend as [ack ->].
    + by intros [= <-].
Qed.

Lemma on_ack_untouched sender f st st' :
  on_ack sender f st = Some st' →
  driver_untouched st st'
  ∧ (trace st' = trace st
     ∨ ∃ p data, trace st' = trace st ++ [EvNeighborUpdate p data]).
Proof.
  unfold on_ack, driver_untouched.
  destruct sender as [p|]; [|intros [= <-]; split; [done|by left]].
  destruct (neighbors st !! p) as [n|]; simpl; [|done].
  case_decide; [intros [= <-]; split; [done|by left]|].
  destruct (coresec_decrypt_verify_unicast (pairwise_key n) f) as [f'|];
    intros [= <-]; simpl; (split; [done|]); [right; by eexists _, _ | by left].
Qed.

(** X14: no inbound command frame and no wait-timer expiry changes the size
    of the wait-timer pool, [our_challenge], the callback reference, the
    state of the bootstrap driver or [node_id]. *)
Theorem handlers_leave_driver (id : Z) (sender : option nat) (f : frame)
    (ptr : nat) (st st' : state) :
  on_command_frame cfg id sender f st = Some st'
  ∨ wait_callback cfg ptr st = Some st' →
  driver_untouched st st'.
Proof.
  intros [Hframe|Htimer]; [|by eapply wait_callback_untouched].
  unfold on_command_frame in Hframe.
  repeat case_decide.
  - by eapply on_hello_untouched.
  - by eapply on_helloack_untouched.
  - by eapply on_ack_untouched.
  - injection Hframe as <-. by unfold driver_untouched.
Qed.

(** X15: [on_hello] sends nothing and calls no collaborator that the trace
    records, whatever becomes of the HELLO: the HELLOACK is left to the
    wait-timer. *)
Theorem on_hello_sends_nothing (sender : option nat) (f : frame)
    (st st' : state) :
  on_hello cfg sender f st = Some st' → trace st' = trace st.
Proof. intros Hhello. by eapply on_hello_untouched. Qed.

(** X21: [on_ack] sends nothing: it leaves the trace alone or adds one call
    of [neighbor_update]. *)
Theorem on_ack_sends_nothing (sender : option nat) (f : frame) (st st' : state) :
  on_ack sender f st = Some st' →
  trace st' = trace st
  ∨ ∃ p data, trace st' = trace st ++ [EvNeighborUpdate p data].
Proof. intros Hack. by eapply on_ack_untouched. Qed.

(** *** The round timer and the callback reference *)

Lemma broadcast_hello_timer (st : state) :
  ∃ f, trace (broadcast_hello st) = trace st ++ [EvSend f]
    ∧ on_bootstrapped (broadcast_hello st) = on_bootstrapped st
    ∧ i (broadcast_hello st) = i st.
Proof. unfold broadcast_hello. simpl. by eexists. Qed.

(** The loop test, reached with [i = k + 1] after [k] rounds. *)
Lemma timer_rounds tr0 callback k tr st :
  0 ≤ k ≤ ROUNDS cfg →
  i st = k + 1 →
  on_bootstrapped st = callback →
  trace st = tr0 ++ tr →
  count_events is_etimer_set tr = 1%nat →
  Z.of_nat (count_events is_etimer_reset tr)
  = (if decide (k < ROUNDS cfg) then k else ROUNDS cfg - 1) →
  (k < ROUNDS cfg ∨ is_Some callback →
   ∃ st', apkes_process_rounds cfg st = Some st'
     ∧ timer_after cfg tr0 callback k st')
  ∧ (k = ROUNDS cfg → callback = None → apkes_process_rounds cfg st = None).
Proof.
  intros Hk Hi Hcb Htr Hset Hreset.
  unfold apkes_process_rounds, timer_after. rewrite Hi, Hcb.
  destruct (decide (k < ROUNDS cfg)) as [Hmore|Hlast].
  - rewrite decide_True by lia. split; [|lia]. intros _.
    destruct (broadcast_hello_timer st) as (f & Hsent & Hcb' & Hi').
    generalize dependent (broadcast_hello st). intros st2 Hsent Hcb' Hi'.
    eexists. split; [done|]. simpl.
    split; [done|]. split; [congruence|]. split; [congruence|].
    exists (tr ++ [EvSend f]). rewrite Hsent, Htr, <- app_assoc.
    split; [done|]. rewrite !count_events_app. simpl. lia.
  - rewrite decide_False by lia. split.
    + intros [?|[cb ->]]; [lia|]. simpl. eexists. split; [done|]. simpl.
      split; [done|].
      exists (tr ++ [EvOnBootstrapped cb]). rewrite Htr, <- app_assoc.
      split; [done|]. rewrite !count_events_app. simpl. lia.
    + by intros _ ->.
Qed.

Lemma timer_thread tr0 callback k expired st :
  0 ≤ k → ROUNDS cfg ≤ 254 →
  timer_after cfg tr0 callback k st →
  (expired = false ∨ ROUNDS cfg ≤ k ∨ k + 1 < ROUNDS cfg ∨ is_Some callback →
   ∃ st', apkes_process_thread cfg expired st = Some st'
     ∧ timer_after cfg tr0 callback (if expired then k + 1 else k) st')
  ∧ (expired = true → k + 1 = ROUNDS cfg → callback = None →
     apkes_process_thread cfg expired st = None).
Proof.
  intros Hk Hmax Hst. unfold apkes_process_thread.
  destruct (decide (k < ROUNDS cfg)) as [Hrun|Hdone].
  - assert (Hst' := Hst). unfold timer_after in Hst'.
    rewrite decide_True in Hst' by done.
    destruct Hst' as (Hlc & Hi & Hcb & tr & Htr & Hset & Hreset).
    rewrite Hlc. destruct expired.
    + assert (Hwrap : wrap8 (k + 1 + 1) = k + 1 + 1)
        by (unfold wrap8; apply Z.mod_small; lia).
      rewrite Hi.
      destruct (decide (k + 1 ≠ ROUNDS cfg)) as [Hne|Heq].
      * destruct (timer_rounds tr0 callback (k + 1) (tr ++ [EvEtimerReset])
                    (set_i (i st + 1) (emit EvEtimerReset st)))
          as [Hgo _].
        { lia. }
        { simpl. by rewrite Hi, Hwrap. }
        { done. }
        { simpl. by rewrite Htr, <- app_assoc. }
        { rewrite count_events_app. simpl. lia. }
        { rewrite count_events_app. simpl. rewrite decide_True by lia. lia. }
        split; [|intros _ ?; lia]. intros _. apply Hgo. left. lia.
      * destruct (timer_rounds tr0 callback (k + 1) tr (set_i (i st + 1) st))
          as [Hgo Hstop].
        { lia. }
        { simpl. by rewrite Hi, Hwrap. }
        { done. }
        { done. }
        { done. }
        { rewrite decide_False by lia. lia. }
        split.
        -- intros [?|[?|[?|Hcallback]]]; [done|lia|lia|]. apply Hgo. by right.
        -- intros _ Hlast ->. apply Hstop; [lia|done].
    + split; [|done]. intros _. by exists st.
  - assert (Hst' := Hst). unfold timer_after in Hst'.
    rewrite decide_False in Hst' by done.
    destruct Hst' as (Hlc & _). rewrite Hlc. split; [|intros _ ?; lia].
    intros _. exists st. split; [done|].
    unfold timer_after in *. rewrite decide_False in Hst by done.
    destruct expired; by rewrite decide_False by lia.
Qed.

Lemma timer_run tr0 cb evs : ∀ k st,
  0 ≤ k → ROUNDS cfg ≤ 254 →
  timer_after cfg tr0 (Some cb) k st →
  ∃ st', run_events cfg evs st = Some st'
    ∧ timer_after cfg tr0 (Some cb) (k + Z.of_nat (expiries evs)) st'.
Proof.
  induction evs as [|expired evs IH]; intros k st Hk Hmax Hst.
  - exists st. split; [done|]. unfold expiries. simpl.
    by replace (k + Z.of_nat 0) with k by lia.
  - destruct (timer_thread tr0 (Some cb) k expired st Hk Hmax Hst) as [Hgo _].
    destruct Hgo as (st1 & Hstep & Hst1); [by do 3 right|].
    simpl. rewrite Hstep. simpl.
    assert (Hk1 : 0 ≤ (if expired then k + 1 else k)) by (destruct expired; lia).
    destruct (IH _ st1 Hk1 Hmax Hst1) as (st' & Hrun & Hst').
    exists st'. split; [done|].
    unfold expiries in *. destruct expired.
    + rewrite filter_cons_True by done. simpl length.
      by replace (k + Z.of_nat (S (length (filter (λ b, b = true) evs))))
        with (k + 1 + Z.of_nat (length (filter (λ b, b = true) evs))) by lia.
    + by rewrite filter_cons_False by done.
Qed.

(** Without a callback the driver runs until the last round is over and then
    calls through the null reference. *)
Lemma timer_run_null tr0 evs : ∀ k st,
  0 ≤ k < ROUNDS cfg → ROUNDS cfg ≤ 254 →
  timer_after cfg tr0 None k st →
  (k + Z.of_nat (expiries evs) < ROUNDS cfg →
   ∃ st', run_events cfg evs st = Some st'
     ∧ timer_after cfg tr0 None (k + Z.of_nat (expiries evs)) st')
  ∧ (ROUNDS cfg ≤ k + Z.of_nat (expiries evs) → run_events cfg evs st = None).
Proof.
  induction evs as [|expired evs IH]; intros k st Hk Hmax Hst.
  - unfold expiries. simpl. replace (k + Z.of_nat 0) with k by lia.
    split; [|lia]. intros _. by exists st.
  - assert (Hcons : Z.of_nat (expiries (expired :: evs))
                    = (if expired then 1 else 0) + Z.of_nat (expiries evs)).
    { unfold expiries. destruct expired.
      - rewrite filter_cons_True by done. simpl length. lia.
      - by rewrite filter_cons_False by done. }
    rewrite Hcons.
    destruct (timer_thread tr0 None k expired st ltac:(lia) Hmax Hst)
      as [Hgo Hstop].
    destruct (decide (expired = true ∧ k + 1 = ROUNDS cfg)) as [[-> Hlast]|Hnot].
    + split; [lia|]. intros _. simpl. by rewrite (Hstop eq_refl Hlast eq_refl).
    + destruct Hgo as (st1 & Hstep & Hst1).
      { destruct expired; [right; right; left; lia | by left]. }
      simpl. rewrite Hstep. simpl.
      destruct (IH (if expired then k + 1 else k) st1) as [IHgo IHstop];
        [destruct expired; lia | done | done |].
      split.
      * intros Hlt. destruct IHgo as (st' & Hrun & Hst'); [destruct expired; lia|].
        exists st'. split; [done|].
        by replace (k + ((if expired then 1 else 0) + Z.of_nat (expiries evs)))
          with ((if expired then k + 1 else k) + Z.of_nat (expiries evs))
          by (destruct expired; lia).
      * intros Hge. apply IHstop. destruct expired; lia.
Qed.

Lemma bootstrap_timer callback st0 :
  1 ≤ ROUNDS cfg →
  apkes_process st0 = PROCESS_NONE →
  ∃ st1, bootstrap cfg callback st0 = Some st1
    ∧ timer_after cfg (trace st0) callback 0 st1.
Proof.
  intros Hrounds Hlc. unfold bootstrap, process_start. simpl. rewrite Hlc.
  unfold apkes_process_begin.
  destruct (timer_rounds (trace st0) callback 0
              [EvSchemeInit; EvEtimerSet (ROUND_DURATION cfg)]
              (set_i 1
                 (emit (EvEtimerSet (ROUND_DURATION cfg))
                    (emit EvSchemeInit
                       (set_wait_timers_memb
                          (memb_init (MAX_TENTATIVE_NEIGHBORS cfg)
                             {| ctimer := None; wt_neighbor := None |})
                          (set_on_bootstrapped callback st0))))))
    as [Hgo _]; simpl; rewrite <- ?app_assoc; try done; try lia.
  - rewrite decide_True by lia. done.
  - apply Hgo. left. lia.
Qed.

(** X16: the bootstrap driver sets the round timer once and resets it after
    every expiry but the last: when the timer has expired [e] times, the
    driver has reset it [min e (ROUNDS - 1)] times. *)
Theorem round_timer_resets (cb : nat) (evs : list bool) (st0 : state) :
  1 ≤ ROUNDS cfg ≤ 254 →
  apkes_process st0 = PROCESS_NONE →
  ∃ st1 st' tr,
    bootstrap cfg (Some cb) st0 = Some st1
    ∧ run_events cfg evs st1 = Some st'
    ∧ trace st' = trace st0 ++ tr
    ∧ count_events is_etimer_set tr = 1%nat
    ∧ Z.of_nat (count_events is_etimer_reset tr)
      = Z.min (Z.of_nat (expiries evs)) (ROUNDS cfg - 1).
Proof.
  intros [Hmin Hmax] Hlc.
  destruct (bootstrap_timer (Some cb) st0 Hmin Hlc) as (st1 & Hboot & Hst1).
  destruct (timer_run (trace st0) cb evs 0 st1 ltac:(lia) Hmax Hst1)
    as (st' & Hrun & Hst').
  rewrite Z.add_0_l in Hst'. unfold timer_after in Hst'.
  exists st1, st'.
  destruct (decide (Z.of_nat (expiries evs) < ROUNDS cfg)) as [Hearly|Hlate].
  - destruct Hst' as (_ & _ & _ & tr & Htr & Hset & Hreset).
    exists tr. do 4 (split; [done|]). lia.
  - destruct Hst' as (_ & tr & Htr & Hset & Hreset).
    exists tr. do 4 (split; [done|]). lia.
Qed.

(** X17: [bootstrap(NULL)].  With a null callback [is_bootstrapped] is true
    from the start, while the driver still runs its rounds; when the timer
    of the last round expires the driver calls through the null
    reference. *)
Theorem bootstrap_null_callback (evs : list bool) (st0 : state) :
  1 ≤ ROUNDS cfg ≤ 254 →
  apkes_process st0 = PROCESS_NONE →
  ∃ st1,
    bootstrap cfg None st0 = Some st1
    ∧ is_bootstrapped st1 = true
    ∧ apkes_process st1 = PROCESS_WAITING
    ∧ (Z.of_nat (expiries evs) < ROUNDS cfg →
       ∃ st', run_events cfg evs st1 = Some st'
         ∧ is_bootstrapped st' = true
         ∧ apkes_process st' = PROCESS_WAITING)
    ∧ (ROUNDS cfg ≤ Z.of_nat (expiries evs) → run_events cfg evs st1 = None).
Proof.
  intros [Hmin Hmax] Hlc.
  destruct (bootstrap_timer None st0 Hmin Hlc) as (st1 & Hboot & Hst1).
  destruct (timer_run_null (trace st0) evs 0 st1 ltac:(lia) Hmax Hst1)
    as [Hgo Hstop].
  rewrite Z.add_0_l in Hgo, Hstop.
  exists st1. split; [done|].
  assert (Hst1' := Hst1). unfold timer_after in Hst1'.
  rewrite decide_True in Hst1' by lia.
  destruct Hst1' as (Hlc1 & _ & Hcb1 & _).
  split; [unfold is_bootstrapped; by rewrite Hcb1|]. split; [done|].
  split; [|done].
  intros Hearly. destruct (Hgo Hearly) as (st' & Hrun & Hst').
  unfold timer_after in Hst'. rewrite decide_True in Hst' by done.
  destruct Hst' as (Hlc' & _ & Hcb' & _).
  exists st'. split; [done|]. split; [|done].
  unfold is_bootstrapped. by rewrite Hcb'.
Qed.

(** *** Trailers *)

(** X19: the local index travels in the ACK.  The data [on_ack] hands to
    [neighbor_update], on receipt of the ACK that [send_ack] built for the
    entry [q], starts with the local index of that entry.  Link-layer
    verification must leave the payload as it was. *)
Theorem ack_carries_local_index (q : nat) (nq : neighbor) (st : state)
    (ack : frame) (stale : list Z) (p : nat) (n : neighbor) (stR : state) :
  neighbors st !! q = Some nq →
  send_ack cfg q st = Some (emit (EvSend ack) st) →
  neighbors stR !! p = Some n →
  status n = NEIGHBOR_TENTATIVE_AWAITING_ACK →
  coresec_decrypt_verify_unicast (pairwise_key n) (received ack stale)
  = Some (received ack stale) →
  ∃ stR' data,
    on_ack (Some p) (received ack stale) stR = Some stR'
    ∧ trace stR' = trace stR ++ [EvNeighborUpdate p data]
    ∧ data !! 0%nat = Some (local_index nq).
Proof.
  intros Hnq Hsend Hn Hstatus Hverify.
  destruct (send_ack_frame q nq st Hnq) as (f & Hsend' & _ & _ & Hdata & Hindex).
  rewrite Hsend in Hsend'.
  assert (ack = f) as <-.
  { assert (Hf : trace (emit (EvSend ack) st) = trace (emit (EvSend f) st))
      by congruence.
    simpl in Hf. apply app_inv_head in Hf. congruence. }
  unfold on_ack. rewrite Hn. simpl.
  destruct (decide (status n ≠ NEIGHBOR_TENTATIVE_AWAITING_ACK)) as [Hne|_];
    [done|].
  rewrite Hverify. eexists _, _. split; [done|]. simpl. split; [done|].
  apply lookup_lt_Some in Hindex as Hlen.
  rewrite lookup_app_l by (rewrite length_take, Hdata; lia).
  rewrite lookup_take_lt by (rewrite Hdata; lia). done.
Qed.

(** X20: with EBEAP encryption the trailer of both the HELLOACK and the ACK
    is the node's broadcast key: [NEIGHBOR_BROADCAST_KEY_LEN] bytes behind
    the local index, which end the frame.  The key must fit the packet
    buffer. *)
Theorem broadcast_key_trailer (p : nat) (n : neighbor) (st : state)
    (stale : list Z) :
  EBEAP_WITH_ENCRYPTION cfg = true →
  (NEIGHBOR_BROADCAST_KEY_LEN cfg ≤ 110)%nat →
  neighbors st !! p = Some n →
  ∃ helloack ack,
    send_helloack cfg p st = Some (emit (EvSend helloack) st)
    ∧ send_ack cfg p st = Some (emit (EvSend ack) st)
    ∧ datalen helloack
      = (1 + 2 * CHALLENGE_LEN + 1 + NEIGHBOR_BROADCAST_KEY_LEN cfg)%nat
    ∧ datalen ack = (1 + 1 + NEIGHBOR_BROADCAST_KEY_LEN cfg)%nat
    ∧ read_bytes (payload (received helloack stale)) (2 * CHALLENGE_LEN + 1)
        (NEIGHBOR_BROADCAST_KEY_LEN cfg)
      = read_bytes (ebeap_broadcast_key st) 0 (NEIGHBOR_BROADCAST_KEY_LEN cfg)
    ∧ read_bytes (payload (received ack stale)) 1
        (NEIGHBOR_BROADCAST_KEY_LEN cfg)
      = read_bytes (ebeap_broadcast_key st) 0 (NEIGHBOR_BROADCAST_KEY_LEN cfg).
Proof.
  intros Henc Hfit Hn. unfold send_helloack, send_ack. rewrite Hn, Henc.
  cbn -[memcpy read_bytes received].
  change CHALLENGE_LEN with 8%nat.
  eexists _, _. split; [done|]. split; [done|].
  split; [done|]. split; [done|]. split.
  - rewrite read_bytes_received_lt; cbn -[memcpy read_bytes];
      rewrite ?length_memcpy; simpl; try lia.
    rewrite memcpy_read_inside by (rewrite ?length_memcpy; simpl; lia).
    by replace (16 + 1 - (16 + 1))%nat with 0%nat by lia.
  - rewrite read_bytes_received_lt; cbn -[memcpy read_bytes];
      rewrite ?length_memcpy; simpl; try lia.
    rewrite memcpy_read_inside by (rewrite ?length_memcpy; simpl; lia).
    done.
Qed.

End MoreHandlers.

(** *** The further theorems at the small instance *)

Lemma on_hello_pool_exhausted_witness :
  @on_hello default_config roomy_collaborators None
    (a_frame HELLO_IDENTIFIER [1; 2; 3; 4; 5; 6; 7; 8; 2; 0])
    (a_busy_state NEIGHBOR_PERMANENT)
  = Some (a_busy_state NEIGHBOR_PERMANENT).
Proof.
  apply (@on_hello_pool_exhausted default_config roomy_collaborators).
  simpl. repeat constructor; simpl; lia.
Defined.

Lemma on_hello_table_full_witness :
  @on_hello default_config simple_collaborators None
    (a_frame HELLO_IDENTIFIER [1; 2; 3; 4; 5; 6; 7; 8; 2; 0])
    (a_state NEIGHBOR_PERMANENT)
  = Some (a_state NEIGHBOR_PERMANENT).
Proof.
  apply (@on_hello_table_full default_config simple_collaborators
           (a_frame HELLO_IDENTIFIER [1; 2; 3; 4; 5; 6; 7; 8; 2; 0])
           (a_state NEIGHBOR_PERMANENT)).
  - simpl. apply Exists_cons_tl, Exists_cons_hd. reflexivity.
  - reflexivity.
Defined.

Lemma on_hello_creates_tentative_witness :
  ∃ st' n,
    @on_hello default_config roomy_collaborators None
      (a_frame HELLO_IDENTIFIER [1; 2; 3; 4; 5; 6; 7; 8; 2; 0])
      (a_state NEIGHBOR_PERMANENT) = Some st'
    ∧ neighbors st' !! 1%nat = Some n
    ∧ status n = NEIGHBOR_TENTATIVE
    ∧ metadata n = [1; 2; 3; 4; 5; 6; 7; 8; 16; 16; 16; 16; 16; 16; 16; 16]
    ∧ expiration_time n = 60
    ∧ memb_inuse (wait_timers_memb st') 1 = true.
Proof.
  edestruct (@on_hello_creates_tentative default_config roomy_collaborators
               (a_frame HELLO_IDENTIFIER [1; 2; 3; 4; 5; 6; 7; 8; 2; 0])
               (a_state NEIGHBOR_PERMANENT))
    as (st' & n & Hcall & Htable & Hstatus & Hmeta & Hexp & _ & Hinuse & _);
    [reflexivity..|].
  exists st', n. split; [exact Hcall|].
  split; [rewrite Htable; apply lookup_insert_eq|].
  split; [exact Hstatus|]. split; [exact Hmeta|]. split; [exact Hexp|].
  exact Hinuse.
Defined.

Lemma hello_roundtrip_witness :
  ∃ f,
    trace (@broadcast_hello simple_collaborators (a_state NEIGHBOR_PERMANENT))
    = [EvSend f]
    ∧ datalen f = 11%nat
    ∧ read_bytes (payload (received f [9; 9])) 0 CHALLENGE_LEN = replicate 8 0
    ∧ read_bytes (payload (received f [9; 9])) CHALLENGE_LEN
        NEIGHBOR_SHORT_ADDR_LEN = [1; 0].
Proof.
  destruct (@hello_roundtrip simple_collaborators (a_state NEIGHBOR_PERMANENT)
              [9; 9])
    as (f & Htrace & _ & _ & Hdata & Hfresh & Hchallenge & Hshort);
    [reflexivity|].
  exists f. split; [exact Htrace|]. split; [exact Hdata|].
  split; [|exact Hshort]. rewrite Hchallenge, Hfresh. reflexivity.
Defined.

Lemma helloack_layout_witness :
  ∃ f,
    send_helloack default_config 0 (a_state NEIGHBOR_TENTATIVE_AWAITING_ACK)
    = Some (emit (EvSend f) (a_state NEIGHBOR_TENTATIVE_AWAITING_ACK))
    ∧ read_bytes (payload (received f [9])) 0 (2 * CHALLENGE_LEN)
      = replicate 16 7
    ∧ drop (2 * CHALLENGE_LEN) (payload (received f [9])) !! 0%nat = Some 0.
Proof.
  destruct (helloack_layout default_config 0
              (a_neighbor NEIGHBOR_TENTATIVE_AWAITING_ACK)
              (a_state NEIGHBOR_TENTATIVE_AWAITING_ACK) [9])
    as (f & Hsend & _ & _ & Hmeta & Hindex); [reflexivity|].
  exists f. split; [exact Hsend|]. split; [exact Hmeta | exact Hindex].
Defined.

Lemma helloack_key_source_roundtrip_witness :
  ∃ f,
    send_helloack encrypting_config 0 (a_state NEIGHBOR_TENTATIVE_AWAITING_ACK)
    = Some (emit (EvSend f) (a_state NEIGHBOR_TENTATIVE_AWAITING_ACK))
    ∧ key_index f = HELLOACK_IDENTIFIER
    ∧ helloack_short_addr encrypting_config (received f []) = [1; 0].
Proof.
  destruct (helloack_key_source_roundtrip encrypting_config 0
              (a_neighbor NEIGHBOR_TENTATIVE_AWAITING_ACK)
              (a_state NEIGHBOR_TENTATIVE_AWAITING_ACK) [])
    as (f & Hsend & _ & Hindex & Hshort); [reflexivity..|].
  exists f. split; [exact Hsend|]. split; [exact Hindex | exact Hshort].
Defined.

Lemma on_helloack_new_neighbor_witness :
  ∃ st' n ack,
    @on_helloack default_config one_secret_scheme roomy_collaborators None
      (a_frame HELLOACK_IDENTIFIER (replicate 8 3 ++ replicate 8 4 ++ [5; 2; 0]))
      (a_state NEIGHBOR_PERMANENT) = Some st'
    ∧ neighbors st' !! 1%nat = Some n
    ∧ status n = NEIGHBOR_PERMANENT
    ∧ trace st' = [EvNeighborUpdate 1 [5; 2; 0]; EvSend ack]
    ∧ command_frame_identifier ack = ACK_IDENTIFIER.
Proof.
  edestruct (@on_helloack_new_neighbor default_config one_secret_scheme
               roomy_collaborators
               (a_frame HELLOACK_IDENTIFIER
                  (replicate 8 3 ++ replicate 8 4 ++ [5; 2; 0]))
               (a_frame HELLOACK_IDENTIFIER
                  (replicate 8 3 ++ replicate 8 4 ++ [5; 2; 0]))
               (replicate 16 1) (a_state NEIGHBOR_PERMANENT))
    as (st' & n & ack & Hcall & Htable & _ & Hstatus & Htrace & Hid & _);
    [reflexivity..|].
  exists st', n, ack. split; [exact Hcall|].
  split; [rewrite Htable; apply lookup_insert_eq|].
  split; [exact Hstatus|]. split; [exact Htrace | exact Hid].
Defined.

Lemma on_helloack_table_full_witness :
  @on_helloack default_config one_secret_scheme simple_collaborators None
    (a_frame HELLOACK_IDENTIFIER (replicate 19 3)) (a_state NEIGHBOR_PERMANENT)
  = Some (a_state NEIGHBOR_PERMANENT).
Proof.
  apply (@on_helloack_table_full default_config one_secret_scheme
           simple_collaborators (a_frame HELLOACK_IDENTIFIER (replicate 19 3))
           (a_frame HELLOACK_IDENTIFIER (replicate 19 3)) (replicate 16 1)
           (a_state NEIGHBOR_PERMANENT)); reflexivity.
Defined.

Lemma on_helloack_awaiting_ack_witness :
  @on_helloack default_config one_secret_scheme simple_collaborators
    (Some 0%nat) (a_frame HELLOACK_IDENTIFIER (replicate 19 3))
    (a_state NEIGHBOR_TENTATIVE_AWAITING_ACK)
  = Some (a_state NEIGHBOR_TENTATIVE_AWAITING_ACK).
Proof.
  apply (@on_helloack_awaiting_ack default_config one_secret_scheme
           simple_collaborators 0%nat
           (a_neighbor NEIGHBOR_TENTATIVE_AWAITING_ACK)); reflexivity.
Defined.

Lemma helloack_before_wait_timer_witness :
  ∃ st1 st2,
    @on_helloack default_config one_secret_scheme simple_collaborators
      (Some 0%nat) (a_frame HELLOACK_IDENTIFIER (replicate 19 3))
      (a_state NEIGHBOR_TENTATIVE) = Some st1
    ∧ status <$> neighbors st1 !! 0%nat = Some NEIGHBOR_PERMANENT
    ∧ wait_callback default_config 0 st1 = Some st2
    ∧ trace st2 = trace st1
    ∧ memb_inuse (wait_timers_memb st2) 0 = false.
Proof.
  edestruct (@helloack_before_wait_timer default_config one_secret_scheme
               simple_collaborators 0%nat (a_neighbor NEIGHBOR_TENTATIVE)
               (a_frame HELLOACK_IDENTIFIER (replicate 19 3))
               (a_frame HELLOACK_IDENTIFIER (replicate 19 3)) (replicate 16 1)
               0%nat {| ctimer := Some 300; wt_neighbor := Some 0%nat |}
               (a_state NEIGHBOR_TENTATIVE))
    as (st1 & st2 & ack & Hcall & Hstatus & _ & _ & Htimer & Htrace & _ & Hfree);
    [reflexivity..|].
  exists st1, st2. split; [exact Hcall|]. split; [exact Hstatus|].
  split; [exact Htimer|]. split; [exact Htrace | exact Hfree].
Defined.

Lemma on_ack_once_witness :
  ∃ st',
    @on_ack simple_collaborators (Some 0%nat) (a_frame ACK_IDENTIFIER [0])
      (a_state NEIGHBOR_TENTATIVE_AWAITING_ACK) = Some st'
    ∧ @on_ack simple_collaborators (Some 0%nat) (a_frame ACK_IDENTIFIER [1]) st'
      = Some st'.
Proof.
  destruct (@on_ack_once simple_collaborators 0%nat
              (a_neighbor NEIGHBOR_TENTATIVE_AWAITING_ACK)
              (a_frame ACK_IDENTIFIER [0]) (a_frame ACK_IDENTIFIER [0])
              (a_frame ACK_IDENTIFIER [1])
              (a_state NEIGHBOR_TENTATIVE_AWAITING_ACK))
    as (st' & Hfirst & _ & Hsecond); [reflexivity..|].
  exists st'. split; [exact Hfirst | exact Hsecond].
Defined.

Lemma helloack_answers_hello_witness :
  ∃ hello stB1 stB2 helloack,
    trace (@broadcast_hello roomy_collaborators (a_state NEIGHBOR_PERMANENT))
    = [EvSend hello]
    ∧ @on_hello default_config roomy_collaborators None (received hello [])
        (a_state NEIGHBOR_PERMANENT) = Some stB1
    ∧ wait_callback default_config 1 stB1 = Some stB2
    ∧ trace stB2 = [EvSend helloack]
    ∧ memcmp_ne
        (our_challenge
           (@broadcast_hello roomy_collaborators (a_state NEIGHBOR_PERMANENT)))
        (payload (received helloack [])) CHALLENGE_LEN = false.
Proof.
  edestruct (@helloack_answers_hello default_config roomy_collaborators
               (a_state NEIGHBOR_PERMANENT) (a_state NEIGHBOR_PERMANENT) [] [])
    as (hello & stB1 & stB2 & helloack & Hsent & Hhello & Htimer & Htrace & _
        & Hchallenge & _);
    [reflexivity..|].
  exists hello, stB1, stB2, helloack.
  split; [exact Hsent|]. split; [exact Hhello|]. split; [exact Htimer|].
  split; [exact Htrace | exact Hchallenge].
Defined.

Lemma pairwise_key_agreement_witness :
  ∃ helloack stA' nA stB' nB',
    send_helloack default_config 0 (a_state NEIGHBOR_TENTATIVE_AWAITING_ACK)
    = Some (emit (EvSend helloack) (a_state NEIGHBOR_TENTATIVE_AWAITING_ACK))
    ∧ @on_helloack default_config one_secret_scheme roomy_collaborators None
        (received helloack [])
        (set_our_challenge (replicate 8 7) (a_state NEIGHBOR_PERMANENT))
      = Some stA'
    ∧ neighbors stA' !! 1%nat = Some nA
    ∧ @get_pairwise_key_with one_secret_scheme roomy_collaborators 0
        (a_state NEIGHBOR_TENTATIVE_AWAITING_ACK)
      = Some (Some (replicate 16 1), stB')
    ∧ neighbors stB' !! 0%nat = Some nB'
    ∧ metadata nA = metadata nB'
    ∧ metadata nA = replicate 16 6.
Proof.
  evar (helloack : frame).
  assert (Hsend : send_helloack default_config 0
                    (a_state NEIGHBOR_TENTATIVE_AWAITING_ACK)
                  = Some (emit (EvSend helloack)
                            (a_state NEIGHBOR_TENTATIVE_AWAITING_ACK)))
    by (subst helloack; reflexivity).
  edestruct (@pairwise_key_agreement default_config one_secret_scheme
               roomy_collaborators
               (set_our_challenge (replicate 8 7) (a_state NEIGHBOR_PERMANENT))
               (a_state NEIGHBOR_TENTATIVE_AWAITING_ACK) helloack []
               (replicate 16 1) 0%nat
               (a_neighbor NEIGHBOR_TENTATIVE_AWAITING_ACK))
    as (stA' & nA & stB' & nB' & HcallA & HnA & HcallB & HnB & Hsame & Hkey);
    [reflexivity | reflexivity | reflexivity | reflexivity | exact Hsend
    | reflexivity..| |].
  - intros n f d. reflexivity.
  - exists helloack, stA', nA, stB', nB'.
    split; [exact Hsend|]. split; [exact HcallA|]. split; [exact HnA|].
    split; [exact HcallB|]. split; [exact HnB|]. split; [exact Hsame|].
    exact Hkey.
Defined.

Lemma handlers_leave_driver_witness :
  ∃ st',
    @on_command_frame default_config one_secret_scheme roomy_collaborators
      HELLO_IDENTIFIER None
      (a_frame HELLO_IDENTIFIER [1; 2; 3; 4; 5; 6; 7; 8; 2; 0])
      (a_state NEIGHBOR_PERMANENT) = Some st'
    ∧ driver_untouched (a_state NEIGHBOR_PERMANENT) st'.
Proof.
  eexists. split; [reflexivity|].
  apply (@handlers_leave_driver default_config one_secret_scheme
           roomy_collaborators HELLO_IDENTIFIER None
           (a_frame HELLO_IDENTIFIER [1; 2; 3; 4; 5; 6; 7; 8; 2; 0]) 0%nat).
  left. reflexivity.
Defined.

Lemma on_hello_sends_nothing_witness :
  ∃ st',
    @on_hello default_config roomy_collaborators None
      (a_frame HELLO_IDENTIFIER [1; 2; 3; 4; 5; 6; 7; 8; 2; 0])
      (a_state NEIGHBOR_PERMANENT) = Some st'
    ∧ trace st' = [].
Proof.
  eexists. split; [reflexivity|].
  apply (@on_hello_sends_nothing default_config roomy_collaborators None
           (a_frame HELLO_IDENTIFIER [1; 2; 3; 4; 5; 6; 7; 8; 2; 0])
           (a_state NEIGHBOR_PERMANENT)).
  reflexivity.
Defined.

Lemma on_ack_sends_nothing_witness :
  ∃ st',
    @on_ack simple_collaborators (Some 0%nat) (a_frame ACK_IDENTIFIER [0])
      (a_state NEIGHBOR_TENTATIVE_AWAITING_ACK) = Some st'
    ∧ (trace st' = []
       ∨ ∃ p data, trace st' = [] ++ [EvNeighborUpdate p data]).
Proof.
  eexists. split; [reflexivity|].
  apply (@on_ack_sends_nothing simple_collaborators
           (Some 0%nat) (a_frame ACK_IDENTIFIER [0])
           (a_state NEIGHBOR_TENTATIVE_AWAITING_ACK)).
  reflexivity.
Defined.

Lemma round_timer_resets_witness :
  ∃ st1 st' tr,
    @bootstrap default_config simple_collaborators (Some 7%nat)
      (a_state NEIGHBOR_PERMANENT) = Some st1
    ∧ @run_events default_config simple_collaborators
        [true; false; true; true; true; true; true; true] st1 = Some st'
    ∧ trace st' = trace (a_state NEIGHBOR_PERMANENT) ++ tr
    ∧ count_events is_etimer_set tr = 1%nat
    ∧ Z.of_nat (count_events is_etimer_reset tr) = 5.
Proof.
  destruct (@round_timer_resets default_config simple_collaborators 7%nat
              [true; false; true; true; true; true; true; true]
              (a_state NEIGHBOR_PERMANENT))
    as (st1 & st' & tr & Hboot & Hrun & Htr & Hset & Hreset);
    [simpl; lia | reflexivity |].
  exists st1, st', tr. repeat (split; [assumption|]). exact Hreset.
Defined.

Lemma bootstrap_null_callback_witness :
  ∃ st1,
    @bootstrap default_config simple_collaborators None
      (a_state NEIGHBOR_PERMANENT) = Some st1
    ∧ is_bootstrapped st1 = true
    ∧ @run_events default_config simple_collaborators
        [true; true; true; true; true; true] st1 = None.
Proof.
  destruct (@bootstrap_null_callback default_config simple_collaborators
              [true; true; true; true; true; true]
              (a_state NEIGHBOR_PERMANENT))
    as (st1 & Hboot & Hflag & _ & _ & Hstop);
    [simpl; lia | reflexivity |].
  exists st1. split; [exact Hboot|]. split; [exact Hflag|].
  apply Hstop. vm_compute. discriminate.
Defined.

Lemma ack_carries_local_index_witness :
  ∃ ack stR' data,
    send_ack default_config 0 (a_state NEIGHBOR_PERMANENT)
    = Some (emit (EvSend ack) (a_state NEIGHBOR_PERMANENT))
    ∧ @on_ack simple_collaborators (Some 0%nat) (received ack [])
        (a_state NEIGHBOR_TENTATIVE_AWAITING_ACK) = Some stR'
    ∧ trace stR' = [EvNeighborUpdate 0 data]
    ∧ data !! 0%nat = Some 0.
Proof.
  evar (ack : frame).
  assert (Hsend : send_ack default_config 0 (a_state NEIGHBOR_PERMANENT)
                  = Some (emit (EvSend ack) (a_state NEIGHBOR_PERMANENT)))
    by (subst ack; reflexivity).
  destruct (@ack_carries_local_index default_config simple_collaborators 0%nat
              (a_neighbor NEIGHBOR_PERMANENT) (a_state NEIGHBOR_PERMANENT)
              ack [] 0%nat (a_neighbor NEIGHBOR_TENTATIVE_AWAITING_ACK)
              (a_state NEIGHBOR_TENTATIVE_AWAITING_ACK))
    as (stR' & data & Hack & Htrace & Hindex);
    [reflexivity | exact Hsend | reflexivity..|].
  exists ack, stR', data.
  split; [exact Hsend|]. split; [exact Hack|].
  split; [exact Htrace | exact Hindex].
Defined.

Lemma broadcast_key_trailer_witness :
  ∃ helloack ack,
    send_helloack encrypting_config 0 (a_state NEIGHBOR_TENTATIVE_AWAITING_ACK)
    = Some (emit (EvSend helloack) (a_state NEIGHBOR_TENTATIVE_AWAITING_ACK))
    ∧ send_ack encrypting_config 0 (a_state NEIGHBOR_TENTATIVE_AWAITING_ACK)
      = Some (emit (EvSend ack) (a_state NEIGHBOR_TENTATIVE_AWAITING_ACK))
    ∧ datalen helloack = 34%nat
    ∧ datalen ack = 18%nat.
Proof.
  destruct (broadcast_key_trailer encrypting_config 0
              (a_neighbor NEIGHBOR_TENTATIVE_AWAITING_ACK)
              (a_state NEIGHBOR_TENTATIVE_AWAITING_ACK) [])
    as (helloack & ack & Hh & Ha & Hdh & Hda & _);
    [reflexivity | simpl; lia | reflexivity |].
  exists helloack, ack. split; [exact Hh|]. split; [exact Ha|].
  split; [exact Hdh | exact Hda].
Defined.

End ApkesFacts.
